(** * Teach_Evaluations: the response-normalisation pipeline

    A shallow embedding of [app.py] (the web handler) and [teach_eval.py]
    (the console loop), and the properties of the pipeline that turns the
    model's free-form reply into a [LessonFeedback].

    Python [str] values are carried as their UTF-8 encoding in [string]:
    the braces, the ASCII letters and the ASCII white space are single
    bytes, and the remaining Unicode white space is recognised by its
    two and three byte encodings. *)

From Stdlib Require Import ZArith Ascii String List Lia.
From Stdlib Require Import Floats.SpecFloat.
From stdpp Require Import base option gmap strings list fin_maps pretty.

Local Open Scope string_scope.
Set Warnings "-register-all".

(** ** Python string methods used by the two programs *)

Module Py.

Definition chr (n : nat) : string := String (ascii_of_nat n) EmptyString.

(** ["\n"] and the double quote, which a literal cannot hold *)
Definition nl : string := chr 10.
Definition dq : string := chr 34.

Definition byte_in (a : ascii) (lo hi : nat) : bool :=
  (lo <=? nat_of_ascii a)%nat && (nat_of_ascii a <=? hi)%nat.

Definition byte_is (a : ascii) (n : nat) : bool := (nat_of_ascii a =? n)%nat.

(** [Py_UNICODE_ISSPACE] below 128: TAB LF VT FF CR, FS GS RS US, SPACE *)
Definition space1 (a : ascii) : bool :=
  byte_in a 9 13 || byte_in a 28 31 || byte_is a 32.

(** U+0085 and U+00A0 *)
Definition space2 (a b : ascii) : bool :=
  byte_is a 194 && (byte_is b 133 || byte_is b 160).

(** U+1680, U+2000..U+200A, U+2028, U+2029, U+202F, U+205F, U+3000 *)
Definition space3 (a b c : ascii) : bool :=
  (byte_is a 225 && byte_is b 154 && byte_is c 128)
  || (byte_is a 226 && byte_is b 128
      && (byte_in c 128 138 || byte_in c 168 169 || byte_is c 175))
  || (byte_is a 226 && byte_is b 129 && byte_is c 159)
  || (byte_is a 227 && byte_is b 128 && byte_is c 128).

(** Drop the white space in front; the three predicates receive the
    bytes in the order in which the scan meets them. *)
Fixpoint skip_space (p1 : ascii -> bool) (p2 : ascii -> ascii -> bool)
    (p3 : ascii -> ascii -> ascii -> bool) (s : string) : string :=
  match s with
  | EmptyString => EmptyString
  | String a s1 =>
      if p1 a then skip_space p1 p2 p3 s1 else
      match s1 with
      | EmptyString => s
      | String b s2 =>
          if p2 a b then skip_space p1 p2 p3 s2 else
          match s2 with
          | EmptyString => s
          | String c s3 =>
              if p3 a b c then skip_space p1 p2 p3 s3 else s
          end
      end
  end.

Fixpoint rev_onto (s acc : string) : string :=
  match s with
  | EmptyString => acc
  | String a s' => rev_onto s' (String a acc)
  end.

Definition rev (s : string) : string := rev_onto s EmptyString.

Definition lstrip (s : string) : string := skip_space space1 space2 space3 s.

Definition rstrip (s : string) : string :=
  rev (skip_space space1 (fun b a => space2 a b)
         (fun c b a => space3 a b c) (rev s)).

(** [str.strip()] *)
Definition strip (s : string) : string := rstrip (lstrip s).

(** [str.lower()] on the ASCII letters. No character outside ASCII has a
    lower case made of the letters d, o, n, e, so the comparison with
    ["done"] in [teach_eval.py] is decided by these. *)
Definition lower_byte (a : ascii) : ascii :=
  if byte_in a 65 90 then ascii_of_nat (nat_of_ascii a + 32) else a.

Fixpoint lower (s : string) : string :=
  match s with
  | EmptyString => EmptyString
  | String a s' => String (lower_byte a) (lower s')
  end.

(** [sep.join(lines)] *)
Fixpoint join (sep : string) (lines : list string) : string :=
  match lines with
  | [] => EmptyString
  | [l] => l
  | l :: ls => l ++ sep ++ join sep ls
  end.

(** [s.find(c)] and [s.rfind(c)] for a one-character [c] *)
Fixpoint find (c : ascii) (s : string) : option nat :=
  match s with
  | EmptyString => None
  | String a s' => if Ascii.eqb a c then Some 0%nat else S <$> find c s'
  end.

Fixpoint rfind (c : ascii) (s : string) : option nat :=
  match s with
  | EmptyString => None
  | String a s' =>
      match rfind c s' with
      | Some j => Some (S j)
      | None => if Ascii.eqb a c then Some 0%nat else None
      end
  end.

(** [needle in hay] *)
Fixpoint in_str (needle hay : string) : bool :=
  String.prefix needle hay ||
  match hay with
  | EmptyString => false
  | String _ hay' => in_str needle hay'
  end.

(** truthiness of a [str] *)
Definition nonempty (s : string) : bool :=
  match s with EmptyString => false | String _ _ => true end.

End Py.

(** ** The pattern language of [re.search(r"\{.*\}", text, re.DOTALL)] *)

Module Re.

(** a literal character, or [.*] under [re.DOTALL] *)
Inductive atom : Type :=
| Lit (c : ascii)
| DotStar.

(** Backtracking match of a sequence of atoms at the head of the text;
    the result is the matched text. [.*] is greedy: it first takes one
    more character, and gives it back when the rest fails. *)
Fixpoint match_here (p : list atom) : string -> option string :=
  match p with
  | [] => fun _ => Some EmptyString
  | Lit c :: p' => fun s =>
      match s with
      | EmptyString => None
      | String a s' =>
          if Ascii.eqb a c then String a <$> match_here p' s' else None
      end
  | DotStar :: p' =>
      fix star (s : string) : option string :=
        match s with
        | EmptyString => match_here p' s
        | String a s' =>
            match star s' with
            | Some m => Some (String a m)
            | None => match_here p' s
            end
        end
  end.

(** [re.search]: the first position, from the left, with a match *)
Fixpoint search (p : list atom) (s : string) : option string :=
  match match_here p s with
  | Some m => Some m
  | None =>
      match s with
      | EmptyString => None
      | String _ s' => search p s'
      end
  end.

End Re.

(** ** JSON values as [json.loads] builds them *)

Module Json.

Inductive value : Type :=
| VNone
| VBool (b : bool)
| VInt (z : Z)
| VFloat (f : spec_float)
| VStr (s : string)
| VList (l : list value)
| VDict (d : gmap string value).

(** [bool(v)] *)
Definition truthy (v : value) : bool :=
  match v with
  | VNone => false
  | VBool b => b
  | VInt z => negb (z =? 0)%Z
  | VFloat (S754_zero _) => false
  | VFloat _ => true
  | VStr s => Py.nonempty s
  | VList l => match l with [] => false | _ :: _ => true end
  | VDict d => negb (size d =? 0)%nat
  end.

(** [a or b] *)
Definition or (a b : value) : value := if truthy a then a else b.

(** [d.get(k)] and [d.get(k, dflt)] *)
Definition get (d : gmap string value) (k : string) : value :=
  default VNone (d !! k).

Definition get_or (d : gmap string value) (k : string) (dflt : value) : value :=
  default dflt (d !! k).

End Json.

Import Json.

(** ** The schema, declared alike in both files *)

Record LessonFeedback : Type := {
  topic : string;
  numerical_grade : Z;
  letter_grade : string;
  score_content : Z;
  score_organization : Z;
  score_mechanics : Z;
  calculation : string;
  strengths : list string;
  weaknesses : list string;
  improvement_suggestions : list string;
  mechanics_issues : list string
}.

(** ** Effects: the console, the gateway and exceptions *)

Inductive exn : Type :=
| EOFError
| AttributeError
| ValidationError
| GatewayFailure
| JSONDecodeError
| ValueError
| RecursionError.

Inductive outcome (A : Type) : Type :=
| Ret (a : A)
| Raise (e : exn).

Arguments Ret {A} a.
Arguments Raise {A} e.

Inductive role : Type := System | Human.

Definition message : Type := (role * string)%type.

(** What the process can observe and change: the lines still to be read
    from standard input, what was written to standard output, and the
    requests sent to the model so far. *)
Record world : Type := {
  stdin : list string;
  stdout : list string;
  llm_calls : list (list message)
}.

Definition IO (A : Type) : Type := world -> outcome A * world.

#[global] Instance IO_ret : MRet IO := fun A a w => (Ret a, w).

#[global] Instance IO_bind : MBind IO := fun A B k m w =>
  match m w with
  | (Ret a, w') => k a w'
  | (Raise e, w') => (Raise e, w')
  end.

Definition raise {A : Type} (e : exn) : IO A := fun w => (Raise e, w).

(** The model behind [llm]: the text of the reply to a request, or a
    failure of the call. *)
Definition gateway : Type := list message -> outcome string.

(** [llm.invoke(messages)], then [.content] *)
Definition llm_invoke (llm : gateway) (messages : list message) : IO string :=
  fun w =>
    (llm messages,
     {| stdin := stdin w; stdout := stdout w;
        llm_calls := llm_calls w ++ [messages] |}).

(** The library functions the programs call: [json.loads], which returns
    the decoded value or raises (the [JSONDecodeError] of a text that is
    not JSON; also a plain [ValueError] past the limit on the digits of
    an integer, and [RecursionError] on deep nesting), the validation
    pydantic runs for a field declared [str], [int] and [list[str]]
    ([None] is a rejected value), and [PydanticOutputParser.parse] (the
    right side is the message of the exception it raises). *)
Record Lib : Type := {
  json_loads : string -> outcome value;
  validate_str : value -> option string;
  validate_int : value -> option Z;
  validate_list_str : value -> option (list string);
  parser_parse : string -> LessonFeedback + string
}.

(** A value that already has the declared type is accepted as it is. *)
Definition accepts_declared_types (L : Lib) : Prop :=
  (forall s, validate_str L (VStr s) = Some s)
  /\ (forall z, validate_int L (VInt z) = Some z)
  /\ (forall l, validate_list_str L (VList (VStr <$> l)) = Some l).

(** [LessonFeedback] applied to the keywords of [kw]: every field is
    required, other keys are ignored, and a missing or rejected field
    raises. *)
Definition LessonFeedback_init (L : Lib) (kw : gmap string value)
    : outcome LessonFeedback :=
  let fields : option LessonFeedback :=
    t ← kw !! "topic" ≫= validate_str L;
    ng ← kw !! "numerical_grade" ≫= validate_int L;
    lg ← kw !! "letter_grade" ≫= validate_str L;
    sc ← kw !! "score_content" ≫= validate_int L;
    so ← kw !! "score_organization" ≫= validate_int L;
    sm ← kw !! "score_mechanics" ≫= validate_int L;
    ca ← kw !! "calculation" ≫= validate_str L;
    st ← kw !! "strengths" ≫= validate_list_str L;
    we ← kw !! "weaknesses" ≫= validate_list_str L;
    im ← kw !! "improvement_suggestions" ≫= validate_list_str L;
    mi ← kw !! "mechanics_issues" ≫= validate_list_str L;
    Some {| topic := t; numerical_grade := ng; letter_grade := lg;
            score_content := sc; score_organization := so;
            score_mechanics := sm; calculation := ca; strengths := st;
            weaknesses := we; improvement_suggestions := im;
            mechanics_issues := mi |} in
  match fields with
  | Some fb => Ret fb
  | None => Raise ValidationError
  end.

(** The f-string both files build the human message from *)
Definition query_of (topic explanation : string) : string :=
  "Topic: " ++ topic ++ Py.nl ++ Py.nl ++ "User's explanation:" ++ Py.nl
  ++ explanation ++ Py.nl ++ Py.nl ++ "Please evaluate according to the rubric.".

(** ** app.py *)

Module App.

(** the system message of [prompt]; it has no replacement field *)
Definition system_text : string :=
"
You are an expert educator and evaluator. Evaluate a lesson explanation.

Rubric (scores 0-100 before weighting):
- Content: 80%
- Organization: 15%
- Mechanics: 5% (spelling/grammar)

Requirements:
1. Provide ONLY a JSON object with the following keys exactly:
   topic, numerical_grade, letter_grade, score_content, score_organization, 
   score_mechanics, calculation, strengths, weaknesses, improvement_suggestions, mechanics_issues
2. Numeric grade = round(0.8*score_content + 0.15*score_organization + 0.05*score_mechanics)
3. Include a short 'calculation' string showing weighted calculation
4. Up to 5 mechanics issues (spelling/grammar), empty list if none
5. Emphasize content: strengths, weaknesses, and at least 3 improvement suggestions must focus on conceptual clarity and organization

ALWAYS respond with VALID JSON only. Do NOT include explanations, markdown fences, or extra text.
".

(** [prompt.format_messages(query=query)] *)
Definition format_messages (query : string) : list message :=
  [(System, system_text); (Human, query)].

Definition adapt_feedback (raw_dict : gmap string value) : gmap string value :=
  list_to_map [
    ("topic", get_or raw_dict "topic" (VStr "Unknown Topic"));
    ("numerical_grade",
      or (get raw_dict "numerical_grade") (get_or raw_dict "overall_score" (VInt 0)));
    ("letter_grade", get_or raw_dict "letter_grade" (VStr "N/A"));
    ("score_content",
      or (get raw_dict "score_content") (get_or raw_dict "content_score" (VInt 0)));
    ("score_organization",
      or (get raw_dict "score_organization")
         (get_or raw_dict "organization_score" (VInt 0)));
    ("score_mechanics",
      or (get raw_dict "score_mechanics") (get_or raw_dict "mechanics_score" (VInt 0)));
    ("calculation",
      or (get raw_dict "calculation") (get_or raw_dict "score_breakdown" (VStr "")));
    ("strengths", get_or raw_dict "strengths" (VList []));
    ("weaknesses", get_or raw_dict "weaknesses" (VList []));
    ("improvement_suggestions", get_or raw_dict "improvement_suggestions" (VList []));
    ("mechanics_issues", get_or raw_dict "mechanics_issues" (VList []))
  ].

(** [r"\{.*\}"] *)
Definition json_pattern : list Re.atom :=
  [Re.Lit "{"%char; Re.DotStar; Re.Lit "}"%char].

Definition extract_json (text : string) : string :=
  let text := Py.strip text in
  match Re.search json_pattern text with
  | Some m => m
  | None => "{}"
  end.

(** what the handler hands to the template *)
Inductive context : Type :=
| Error (msg : string)
| Feedback (feedback : LessonFeedback).

Definition evaluate_lesson (L : Lib) (llm : gateway)
    (topic explanation : string) : IO context :=
  if negb (Py.nonempty (Py.strip explanation)) then
    mret (Error "Explanation cannot be empty.")
  else
    let query := query_of topic explanation in
    raw_text ← llm_invoke llm (format_messages query);
    if negb (Py.nonempty raw_text) || negb (Py.nonempty (Py.strip raw_text)) then
      mret (Error "Empty response from LLM.")
    else
      let json_text := extract_json raw_text in
      let raw_dict : outcome value :=
        match json_loads L json_text with
        | Raise JSONDecodeError => Ret (VDict ∅)
        | decoded_or_raised => decoded_or_raised
        end in
      match raw_dict with
      | Raise e => raise e (* not named by the [except] clause *)
      | Ret (VDict d) =>
          let adapted_dict := adapt_feedback d in
          fun w =>
            match LessonFeedback_init L adapted_dict with
            | Ret feedback => (Ret (Feedback feedback), w)
            | Raise e => (Raise e, w)
            end
      | Ret _ => raise AttributeError (* no [get] on what is not a dict *)
      end.

End App.

(** ** teach_eval.py *)

Module TeachEval.

(** the system message of [prompt]; it has no replacement field *)
Definition system_text : string :=
"
You are an expert educator and evaluator. The user will provide a lesson explanation on a topic.

Evaluate using this component rubric (all component scores are expressed on a 0-100 scale *before* weighting):
- Content (weight 80%): accuracy, depth of understanding, meaningful examples, correct use of concepts.
- Organization (weight 15%): logical flow, structure, clear progression, signposting.
- Mechanics (weight 5%): spelling, grammar, punctuation. Mechanics should only slightly influence the final grade.
  - Mechanics deductions must be small: mechanics can change the final numeric grade by at most +/- 7 points total.
  - If mechanics seriously interfere with comprehension, note that explicitly and it may justify a larger deduction, but explain why.

Requirements for your response:
1. Provide all fields exactly in the Pydantic schema that follows format_instructions. Do not output any other text.
2. For numeric grade: compute a weighted total = round(0.80*score_content + 0.15*score_organization + 0.05*score_mechanics).
3. Include a short 'calculation' string showing the three component scores and the weighted computation (example: " ++ Py.dq ++ "0.8*86 + 0.15*78 + 0.05*92 = 85" ++ Py.dq ++ ").
4. Provide up to 5 specific mechanics issues (spelling/grammar) with short excerpts or corrections in 'mechanics_issues'. If none, return an empty list.
5. Emphasize content: if two explanations only differ by minor spelling mistakes, the numerical grade should primarily reflect content differences and should not be identical only because the model ignored mechanics — your calculation must show the small mechanics effect.
6. Return strengths, weaknesses, and at least 3 concrete improvement suggestions focused on conceptual clarity and organization (not only grammar).

Respond only in the structured format that the parser expects.
            ".

Definition format_messages (query : string) : list message :=
  [(System, system_text); (Human, query)].

Definition write (s : string) : IO unit := fun w =>
  (Ret tt,
   {| stdin := stdin w; stdout := stdout w ++ [s]; llm_calls := llm_calls w |}).

(** [print(s)] *)
Definition print (s : string) : IO unit := write (s ++ Py.nl).

(** [input(prompt)]: the next line without its newline, or [EOFError] *)
Definition input (prompt : string) : IO string := fun w =>
  match stdin w with
  | [] =>
      (Raise EOFError,
       {| stdin := []; stdout := stdout w ++ [prompt]; llm_calls := llm_calls w |})
  | line :: rest =>
      (Ret line,
       {| stdin := rest; stdout := stdout w ++ [prompt]; llm_calls := llm_calls w |})
  end.

(** The [while True] loop over [input()]: it ends at the end of the
    input or at a line that reads [done]; the result is [lines] and
    what is left of the input. *)
Fixpoint read_lines (pending lines : list string) : list string * list string :=
  match pending with
  | [] => (lines, [])
  | text :: rest =>
      if String.eqb (Py.lower (Py.strip text)) "done" then (lines, rest)
      else read_lines rest (lines ++ [text])
  end.

Definition read_explanation : IO (list string) := fun w =>
  let '(lines, rest) := read_lines (stdin w) [] in
  (Ret lines, {| stdin := rest; stdout := stdout w; llm_calls := llm_calls w |}).

Definition get_explanation_from_user : IO (string * string) :=
  _ ← print "Welcome to the content-focused Lesson Evaluator.";
  line ← input "Enter the topic you'll explain: ";
  let topic := Py.strip line in
  _ ← print (Py.nl ++ "Begin explaining your topic. Type 'DONE' on a new line when you are finished." ++ Py.nl);
  lines ← read_explanation;
  let explanation := Py.join Py.nl lines in
  mret (topic, explanation).

Definition grade_explanation (llm : gateway) (topic explanation : string)
    : IO string :=
  let query := query_of topic explanation in
  llm_invoke llm (format_messages query).

(** [str(n)] for an [int] *)
Definition str_int (n : Z) : string := pretty n.

(** [for x in xs: print(f" - {x}")] *)
Fixpoint print_items (xs : list string) : IO unit :=
  match xs with
  | [] => mret tt
  | x :: xs' => _ ← print (" - " ++ x); print_items xs'
  end.

Definition display_feedback (L : Lib) (raw_response : string) : IO unit :=
  match parser_parse L raw_response with
  | inl feedback =>
      _ ← print "===== Lesson Evaluation =====";
      _ ← print ("Topic: " ++ topic feedback);
      _ ← print ("Numerical Grade: " ++ str_int (numerical_grade feedback) ++ "/100");
      _ ← print ("Letter Grade: " ++ letter_grade feedback);
      _ ← print ("Calculation: " ++ calculation feedback);
      _ ← print (Py.nl ++ "Component scores (0-100 before weighting):");
      _ ← print (" - Content: " ++ str_int (score_content feedback));
      _ ← print (" - Organization: " ++ str_int (score_organization feedback));
      _ ← print (" - Mechanics: " ++ str_int (score_mechanics feedback));
      _ ← print (Py.nl ++ "Strengths:");
      _ ← print_items (strengths feedback);
      _ ← print (Py.nl ++ "Weaknesses:");
      _ ← print_items (weaknesses feedback);
      _ ← print (Py.nl ++ "Suggestions for Improvement (conceptual/structural):");
      _ ← print_items (improvement_suggestions feedback);
      _ ← print (Py.nl ++ "Specific mechanics issues (up to 5):");
      _ ← match mechanics_issues feedback with
          | [] => print " - None noted"
          | ms => print_items ms
          end;
      print "==============================="
  | inr e =>
      _ ← print ("Error parsing response: " ++ e);
      print ("Raw response content: " ++ raw_response)
  end.

Definition main (L : Lib) (llm : gateway) : IO unit :=
  '(topic, explanation) ← get_explanation_from_user;
  if negb (Py.nonempty (Py.strip explanation)) then
    print "No explanation provided. Exiting."
  else
    raw ← grade_explanation llm topic explanation;
    display_feedback L raw.

End TeachEval.

(** ** Vocabulary of the statements *)

(** [needle] occurs in one of the messages of a request *)
Definition request_contains (needle : string) (messages : list message) : bool :=
  existsb (fun m => Py.in_str needle (snd m)) messages.

(** The world after the one request of [evaluate_lesson] was sent *)
Definition after_call (w : world) (messages : list message) : world :=
    {| stdin := stdin w; stdout := stdout w;
       llm_calls := llm_calls w ++ [messages] |}.

(** The fields of [adapt_feedback] that have an alias: field, alias, default *)
Definition aliased_fields : list (string * string * value) :=
  [ ("numerical_grade", "overall_score", VInt 0);
    ("score_content", "content_score", VInt 0);
    ("score_organization", "organization_score", VInt 0);
    ("score_mechanics", "mechanics_score", VInt 0);
    ("calculation", "score_breakdown", VStr "") ].

(** The fields read with [get(key, default)] alone: field, default *)
Definition plain_fields : list (string * value) :=
  [ ("topic", VStr "Unknown Topic");
    ("letter_grade", VStr "N/A");
    ("strengths", VList []);
    ("weaknesses", VList []);
    ("improvement_suggestions", VList []);
    ("mechanics_issues", VList []) ].

(** The field names of [LessonFeedback], in the order of the class *)
Definition schema_fields : list string :=
  [ "topic"; "numerical_grade"; "letter_grade"; "score_content";
    "score_organization"; "score_mechanics"; "calculation"; "strengths";
    "weaknesses"; "improvement_suggestions"; "mechanics_issues" ].

(** The feedback built when every field takes its default *)
Definition default_feedback : LessonFeedback :=
  {| topic := "Unknown Topic"; numerical_grade := 0; letter_grade := "N/A";
     score_content := 0; score_organization := 0; score_mechanics := 0;
     calculation := ""; strengths := []; weaknesses := [];
     improvement_suggestions := []; mechanics_issues := [] |}.

(** The span the specification of the extractor speaks of: from the first
    opening brace of [t] to its last closing brace, when that one comes
    later. *)
Definition brace_span (t : string) : option string :=
  match Py.find "{"%char t, Py.rfind "}"%char t with
  | Some i, Some j =>
      if (i <? j)%nat then Some (substring i (j + 1 - i) t) else None
  | _, _ => None
  end.

(** What the [try] block around [json.loads] leaves in [raw_dict], or the
    exception that its [except json.JSONDecodeError] lets through *)
Definition decoded (L : Lib) (json_text : string) : outcome value :=
  match json_loads L json_text with
  | Raise JSONDecodeError => Ret (VDict ∅)
  | decoded_or_raised => decoded_or_raised
  end.

(** The keys [adapt_feedback] reads: the fields and the five aliases *)
Definition adapter_keys : list string :=
  schema_fields ++
  [ "overall_score"; "content_score"; "organization_score";
    "mechanics_score"; "score_breakdown" ].

(** The mapping to which a reply decodes that spells out [fb] under the
    names of the schema *)
Definition to_dict (fb : LessonFeedback) : gmap string value :=
  list_to_map [
    ("topic", VStr (topic fb));
    ("numerical_grade", VInt (numerical_grade fb));
    ("letter_grade", VStr (letter_grade fb));
    ("score_content", VInt (score_content fb));
    ("score_organization", VInt (score_organization fb));
    ("score_mechanics", VInt (score_mechanics fb));
    ("calculation", VStr (calculation fb));
    ("strengths", VList (VStr <$> strengths fb));
    ("weaknesses", VList (VStr <$> weaknesses fb));
    ("improvement_suggestions", VList (VStr <$> improvement_suggestions fb));
    ("mechanics_issues", VList (VStr <$> mechanics_issues fb))
  ].

(** The validation of a field by the type [LessonFeedback] declares for
    it turns the value down. *)
Definition rejected (L : Lib) (f : string) (v : value) : Prop :=
  (f ∈ ["topic"; "letter_grade"; "calculation"] /\ validate_str L v = None)
  \/ (f ∈ ["numerical_grade"; "score_content"; "score_organization";
           "score_mechanics"] /\ validate_int L v = None)
  \/ (f ∈ ["strengths"; "weaknesses"; "improvement_suggestions";
           "mechanics_issues"] /\ validate_list_str L v = None).

(** The test that ends the loop of [get_explanation_from_user] *)
Definition is_done (text : string) : bool :=
  String.eqb (Py.lower (Py.strip text)) "done".

(** The world after [chunks] were written to standard output *)
Definition after_output (w : world) (chunks : list string) : world :=
  {| stdin := stdin w; stdout := stdout w ++ chunks; llm_calls := llm_calls w |}.

(** A small instance of the libraries, to run the programs on concrete
    inputs: it decodes the empty object only, and validates a value of
    the declared type and nothing else. *)
Module Stub.

Definition loads (s : string) : outcome value :=
  if String.eqb s "{}" then Ret (VDict ∅) else Raise JSONDecodeError.

Definition str (v : value) : option string :=
  match v with VStr s => Some s | _ => None end.

Definition int (v : value) : option Z :=
  match v with VInt z => Some z | _ => None end.

Definition list_str (v : value) : option (list string) :=
  match v with VList l => mapM str l | _ => None end.

Definition lib : Lib :=
  {| json_loads := loads; validate_str := str; validate_int := int;
     validate_list_str := list_str;
     parser_parse := fun _ => inr "Invalid json output" |}.

Definition echo (reply : string) : gateway := fun _ => Ret reply.

(** The length of the longest run of decimal digits in [s]; [run] is the
    length of the run that ends where [s] begins. *)
Fixpoint longest_digits (s : string) (run best : nat) : nat :=
  match s with
  | EmptyString => Nat.max run best
  | String a s' =>
      if Py.byte_in a 48 57 then longest_digits s' (S run) best
      else longest_digits s' 0%nat (Nat.max run best)
  end.

(** A decoder that, as CPython does by default, gives up with
    [ValueError] on an integer of more than 4300 digits, before it has
    read what follows the integer. *)
Definition loads_digit_limited (s : string) : outcome value :=
  if (4300 <? longest_digits s 0 0)%nat then Raise ValueError else loads s.

Definition digit_limited : Lib :=
  {| json_loads := loads_digit_limited; validate_str := str;
     validate_int := int; validate_list_str := list_str;
     parser_parse := fun _ => inr "Invalid json output" |}.

Fixpoint ones (n : nat) : string :=
  match n with
  | O => EmptyString
  | S n' => String "1" (ones n')
  end.

(** A reply whose span is not JSON (a comma closes the object) and holds
    a grade of 4500 digits *)
Definition long_integer_reply : string :=
  "{" ++ Py.dq ++ "numerical_grade" ++ Py.dq ++ ": " ++ ones 4500 ++ ",}".

Definition start (lines : list string) : world :=
  {| stdin := lines; stdout := []; llm_calls := [] |}.

End Stub.

(** An instance of the libraries whose decoder reads every text as the
    mapping of [fb] and whose parser reads it as [fb] *)
Definition reading (fb : LessonFeedback) : Lib :=
  {| json_loads := fun _ => Ret (VDict (to_dict fb));
     validate_str := Stub.str; validate_int := Stub.int;
     validate_list_str := Stub.list_str;
     parser_parse := fun _ => inl fb |}.

(** A feedback to run the programs on *)
Definition sample_feedback : LessonFeedback :=
  {| topic := "Photosynthesis"; numerical_grade := 85; letter_grade := "B";
     score_content := 0; score_organization := 70; score_mechanics := 100;
     calculation := ""; strengths := ["Clear"; "Accurate"];
     weaknesses := ["Short"]; improvement_suggestions := [];
     mechanics_issues := [] |}.

(** What [get_explanation_from_user] writes before it reads the lines *)
Definition greeting : list string :=
  [ "Welcome to the content-focused Lesson Evaluator." ++ Py.nl;
    "Enter the topic you'll explain: ";
    (Py.nl ++ "Begin explaining your topic. Type 'DONE' on a new line when you are finished."
     ++ Py.nl) ++ Py.nl ].

(** The line [print_items] writes for an item *)
Definition item_line (x : string) : string := (" - " ++ x) ++ Py.nl.

(** What [display_feedback] writes for a parsed feedback, one chunk for
    each [print] *)
Definition report (fb : LessonFeedback) : list string :=
  ["===== Lesson Evaluation =====" ++ Py.nl]
  ++ [("Topic: " ++ topic fb) ++ Py.nl]
  ++ [("Numerical Grade: " ++ TeachEval.str_int (numerical_grade fb) ++ "/100") ++ Py.nl]
  ++ [("Letter Grade: " ++ letter_grade fb) ++ Py.nl]
  ++ [("Calculation: " ++ calculation fb) ++ Py.nl]
  ++ [(Py.nl ++ "Component scores (0-100 before weighting):") ++ Py.nl]
  ++ [(" - Content: " ++ TeachEval.str_int (score_content fb)) ++ Py.nl]
  ++ [(" - Organization: " ++ TeachEval.str_int (score_organization fb)) ++ Py.nl]
  ++ [(" - Mechanics: " ++ TeachEval.str_int (score_mechanics fb)) ++ Py.nl]
  ++ [(Py.nl ++ "Strengths:") ++ Py.nl]
  ++ (item_line <$> strengths fb)
  ++ [(Py.nl ++ "Weaknesses:") ++ Py.nl]
  ++ (item_line <$> weaknesses fb)
  ++ [(Py.nl ++ "Suggestions for Improvement (conceptual/structural):") ++ Py.nl]
  ++ (item_line <$> improvement_suggestions fb)
  ++ [(Py.nl ++ "Specific mechanics issues (up to 5):") ++ Py.nl]
  ++ match mechanics_issues fb with
     | [] => [" - None noted" ++ Py.nl]
     | ms => item_line <$> ms
     end
  ++ ["===============================" ++ Py.nl].

(** [m] ends normally in every world and does nothing but write [out] *)
Definition writes (m : IO unit) (out : list string) : Prop :=
  forall w : world, m w = (Ret tt, after_output w out).

(** * Properties *)

(** ** The extractor *)

Section Extractor.

Abbreviation close := (Re.match_here [Re.DotStar; Re.Lit "}"%char]).

Lemma substring_0_0 (s : string) : substring 0 0 s = "".
Proof. by destruct s. Qed.

Lemma close_step (a : ascii) (s : string) :
  close (String a s) =
    match close s with
    | Some m => Some (String a m)
    | None => if Ascii.eqb a "}" then Some (String a "") else None
    end.
Proof.
  simpl. destruct (close s); [done|]. by destruct (Ascii.eqb a "}").
Qed.

(** [.*\}] takes the text up to its last closing brace *)
Lemma close_rfind (s : string) :
  close s = (fun j => substring 0 (S j) s) <$> Py.rfind "}" s.
Proof.
  induction s as [|a s IH]; [done|].
  rewrite close_step, IH. simpl Py.rfind.
  destruct (Py.rfind "}" s) as [j|]; simpl; [done|].
  destruct (Ascii.eqb a "}"); simpl; [|done].
  by rewrite substring_0_0.
Qed.

Lemma match_here_json (a : ascii) (s : string) :
  Re.match_here App.json_pattern (String a s) =
    if Ascii.eqb a "{" then String a <$> close s else None.
Proof. reflexivity. Qed.

Lemma search_no_close (s : string) :
  Py.rfind "}" s = None -> Re.search App.json_pattern s = None.
Proof.
  induction s as [|a s IH]; [done|].
  simpl Py.rfind. destruct (Py.rfind "}" s) as [j|] eqn:Hr; [done|].
  intros _. cbn [Re.search]. rewrite match_here_json, close_rfind, Hr. simpl.
  destruct (Ascii.eqb a "{"); by apply IH.
Qed.

(** The search finds the span from the first opening brace to the last
    closing brace, and nothing when no closing brace follows the first
    opening one. *)
Lemma search_brace_span (s : string) :
  Re.search App.json_pattern s = brace_span s.
Proof.
  induction s as [|a s IH]; [done|].
  cbn [Re.search]. rewrite match_here_json, close_rfind.
  unfold brace_span. simpl Py.find. simpl Py.rfind.
  destruct (Ascii.eqb a "{") eqn:Ha.
  - apply Ascii.eqb_eq in Ha as ->.
    destruct (Py.rfind "}" s) as [j|] eqn:Hr; simpl.
    + replace (j + 1)%nat with (S j) by lia. done.
    + by apply search_no_close.
  - simpl. rewrite IH. unfold brace_span.
    destruct (Py.find "{" s) as [i|]; simpl; [|done].
    destruct (Py.rfind "}" s) as [j|]; simpl.
    + change (S i <? S j)%nat with (i <? j)%nat.
      destruct (i <? j)%nat; [|done].
      by replace (S j + 1 - S i)%nat with (j + 1 - i)%nat by lia.
    + by destruct (Ascii.eqb a "}").
Qed.

(** White space is all that [strip] removes, so it adds no character. *)
Lemma find_tail (c a : ascii) (s : string) :
  Py.find c (String a s) = None -> Py.find c s = None.
Proof.
  simpl. destruct (Ascii.eqb a c); [done|]. by destruct (Py.find c s).
Qed.

Lemma find_skip_space p1 p2 p3 (c : ascii) (n : nat) :
  forall s, (String.length s <= n)%nat -> Py.find c s = None ->
    Py.find c (Py.skip_space p1 p2 p3 s) = None.
Proof.
  induction n as [|n IH]; intros s Hn Hs.
  - by destruct s; [|simpl in Hn; lia].
  - destruct s as [|a s1]; [done|]. simpl in Hn.
    pose proof (find_tail _ _ _ Hs) as H1. cbn [Py.skip_space].
    destruct (p1 a); [apply IH; [lia|done]|].
    destruct s1 as [|b s2]; [done|]. simpl in Hn.
    pose proof (find_tail _ _ _ H1) as H2.
    destruct (p2 a b); [apply IH; [lia|done]|].
    destruct s2 as [|c' s3]; [done|]. simpl in Hn.
    pose proof (find_tail _ _ _ H2) as H3.
    destruct (p3 a b c'); [apply IH; [lia|done]|done].
Qed.

Lemma find_rev_onto (c : ascii) (s : string) :
  forall acc, Py.find c s = None -> Py.find c acc = None ->
    Py.find c (Py.rev_onto s acc) = None.
Proof.
  induction s as [|a s IH]; intros acc Hs Hacc; [done|].
  simpl. apply IH; [by eapply find_tail|].
  simpl in *. destruct (Ascii.eqb a c); [done|]. by rewrite Hacc.
Qed.

Lemma find_strip (c : ascii) (s : string) :
  Py.find c s = None -> Py.find c (Py.strip s) = None.
Proof.
  intros Hs. unfold Py.strip, Py.rstrip, Py.lstrip, Py.rev.
  apply find_rev_onto; [|done].
  eapply find_skip_space; [done|].
  apply find_rev_onto; [|done].
  by eapply find_skip_space.
Qed.

Lemma brace_span_no_open (t : string) :
  Py.find "{" t = None -> brace_span t = None.
Proof. unfold brace_span. by intros ->. Qed.

Lemma extract_json_brace_span (text : string) :
  App.extract_json text = default "{}" (brace_span (Py.strip text)).
Proof.
  unfold App.extract_json. rewrite search_brace_span.
  by destruct (brace_span _).
Qed.

(** C1, as the code has it: [extract_json] returns the span of the trimmed
    text from its first opening brace to its last closing brace when a
    closing brace follows the first opening one, and the literal [{}]
    otherwise: when the text has no opening brace, and also when no
    closing brace comes after the first opening one. On the text
    [blah {"a":1} blah] it returns [{"a":1}]. *)
Theorem extract_json_span :
  (forall text : string,
     App.extract_json text = default "{}" (brace_span (Py.strip text)))
  /\ (forall text : string,
        Py.find "{" text = None -> App.extract_json text = "{}")
  /\ App.extract_json
       ("blah {" ++ Py.dq ++ "a" ++ Py.dq ++ ":1} blah")
     = "{" ++ Py.dq ++ "a" ++ Py.dq ++ ":1}".
Proof.
  split; [exact extract_json_brace_span|]. split; [|reflexivity].
  intros text Hno. rewrite extract_json_brace_span.
  by rewrite brace_span_no_open by (by apply find_strip).
Qed.

(** An instance of C1 without an opening brace *)
Lemma extract_json_span_witness :
  Py.find "{" "no object here" = None
  /\ App.extract_json "no object here" = "{}".
Proof.
  split; [reflexivity|].
  apply (proj1 (proj2 extract_json_span) "no object here"). reflexivity.
Defined.

(** Against C1 as the specification words it: the text [{] has an opening
    brace, yet the result is the literal [{}], which is no part of the
    text at all. *)
Lemma extract_json_unclosed_brace :
  Py.find "{" (Py.strip "{") = Some 0%nat
  /\ App.extract_json "{" = "{}"
  /\ forall n m : nat, substring n m (Py.strip "{") <> App.extract_json "{".
Proof.
  split; [reflexivity|]. split; [reflexivity|].
  intros n m. change (substring n m "{" <> "{}").
  destruct n as [|[|n]], m as [|[|m]]; simpl; discriminate.
Qed.

End Extractor.

(** ** The adapter *)

Section Adapter.

Import App.

Lemma lookup_aliased (d : gmap string value) (f alias : string) (dflt : value) :
  (f, alias, dflt) ∈ aliased_fields ->
  adapt_feedback d !! f = Some (or (get d f) (get_or d alias dflt)).
Proof.
  unfold aliased_fields. rewrite !elem_of_cons, elem_of_nil.
  intros [H|[H|[H|[H|[H|[]]]]]]; injection H as -> -> ->; reflexivity.
Qed.

Lemma lookup_plain (d : gmap string value) (f : string) (dflt : value) :
  (f, dflt) ∈ plain_fields ->
  adapt_feedback d !! f = Some (get_or d f dflt).
Proof.
  unfold plain_fields. rewrite !elem_of_cons, elem_of_nil.
  intros [H|[H|[H|[H|[H|[H|[]]]]]]]; injection H as -> ->; reflexivity.
Qed.

Lemma aliased_distinct (f alias : string) (dflt : value) :
  (f, alias, dflt) ∈ aliased_fields -> f <> alias.
Proof.
  unfold aliased_fields. rewrite !elem_of_cons, elem_of_nil.
  intros [H|[H|[H|[H|[H|[]]]]]]; injection H as -> -> ->; discriminate.
Qed.

(** C2: for the five fields with an alias, a falsy value under the exact
    key cannot be told from a missing key: the adapter returns the very
    mapping it returns once the key is deleted, and the field takes the
    value under the alias or, without the alias, the default. So
    [{"numerical_grade": 0, "overall_score": 77}] is adapted to 77, not
    to the 0 it holds. *)
Theorem adapt_feedback_falsy_as_missing
    (d : gmap string value) (f alias : string) (dflt v : value) :
  (f, alias, dflt) ∈ aliased_fields ->
  d !! f = Some v ->
  truthy v = false ->
  adapt_feedback d = adapt_feedback (delete f d)
  /\ adapt_feedback d !! f = Some (default dflt (d !! alias)).
Proof.
  intros Hin Hv Hf. split.
  - revert Hin Hv. unfold aliased_fields. rewrite !elem_of_cons, elem_of_nil.
    intros [H|[H|[H|[H|[H|[]]]]]] Hv; injection H as -> -> ->;
      unfold adapt_feedback, or, get, get_or;
      rewrite lookup_delete_eq, Hv, !(lookup_delete_ne d) by done;
      simpl; rewrite Hf; reflexivity.
  - rewrite (lookup_aliased _ f alias dflt) by done.
    unfold or, get, get_or. rewrite Hv. simpl. by rewrite Hf.
Qed.

Lemma adapt_feedback_falsy_as_missing_witness :
  let d : gmap string value :=
    <["numerical_grade" := VInt 0]> {[ "overall_score" := VInt 77 ]} in
  adapt_feedback d = adapt_feedback (delete "numerical_grade" d)
  /\ adapt_feedback d !! "numerical_grade" = Some (VInt 77).
Proof.
  intros d.
  apply (adapt_feedback_falsy_as_missing d "numerical_grade" "overall_score"
           (VInt 0) (VInt 0)).
  - apply list_elem_of_here.
  - reflexivity.
  - reflexivity.
Defined.

(** C3: every field is resolved by its exact key first, then by its one
    alias (for the five fields that have one), then by its default. For
    a field with an alias the exact key answers when it holds a truthy
    value; otherwise the alias answers when it is present, and the
    default otherwise. The other six fields take the exact key when
    present and the default otherwise. A mapping with [overall_score]
    77 and without [numerical_grade] is adapted to [numerical_grade] 77. *)
Theorem adapt_feedback_resolution (d : gmap string value) :
  (forall f alias dflt, (f, alias, dflt) ∈ aliased_fields ->
     adapt_feedback d !! f =
       Some match d !! f with
            | Some v => if truthy v then v else default dflt (d !! alias)
            | None => default dflt (d !! alias)
            end)
  /\ (forall f dflt, (f, dflt) ∈ plain_fields ->
        adapt_feedback d !! f = Some (default dflt (d !! f)))
  /\ (d !! "numerical_grade" = None ->
      d !! "overall_score" = Some (VInt 77) ->
      adapt_feedback d !! "numerical_grade" = Some (VInt 77)).
Proof.
  split; [|split].
  - intros f alias dflt Hin. rewrite (lookup_aliased _ f alias dflt) by done.
    unfold or, get, get_or. by destruct (d !! f).
  - intros f dflt Hin. by rewrite (lookup_plain _ f dflt).
  - intros Hng Hos.
    rewrite (lookup_aliased _ "numerical_grade" "overall_score" (VInt 0))
      by apply list_elem_of_here.
    unfold or, get, get_or. by rewrite Hng, Hos.
Qed.

Lemma adapt_feedback_resolution_witness :
  adapt_feedback {[ "overall_score" := VInt 77 ]} !! "numerical_grade"
    = Some (VInt 77)
  /\ adapt_feedback {[ "overall_score" := VInt 77 ]} !! "score_content"
       = Some (VInt 0)
  /\ adapt_feedback {[ "overall_score" := VInt 77 ]} !! "letter_grade"
       = Some (VStr "N/A").
Proof.
  pose proof (adapt_feedback_resolution {[ "overall_score" := VInt 77 ]})
    as (Haliased & Hplain & H77).
  split; [apply H77; reflexivity|]. split.
  - apply (Haliased "score_content" "content_score" (VInt 0)).
    apply list_elem_of_further, list_elem_of_here.
  - apply (Hplain "letter_grade" (VStr "N/A")).
    apply list_elem_of_further, list_elem_of_here.
Defined.



(** C10: whatever the input mapping holds, the adapted mapping has the
    eleven field names of [LessonFeedback] as its keys and no other:
    keys of the input that the schema does not know are dropped. *)
Theorem adapt_feedback_keys (d : gmap string value) :
  dom (adapt_feedback d) = list_to_set schema_fields
  /\ size (adapt_feedback d) = 11%nat
  /\ NoDup schema_fields
  /\ adapt_feedback (<["grade" := VInt 90]> d) !! "grade" = None.
Proof.
  assert (Hnd : NoDup schema_fields).
  { unfold schema_fields. apply NoDup_ListNoDup.
    repeat (constructor; [simpl; intuition discriminate|]). constructor. }
  assert (Hdom : dom (adapt_feedback d) = list_to_set schema_fields).
  { unfold adapt_feedback. by rewrite dom_list_to_map_L. }
  split; [done|]. split; [|split; [done|reflexivity]].
  rewrite <- size_dom, Hdom, size_list_to_set by done. done.
Qed.

End Adapter.

(** ** The assembler and the handlers *)

Section Pipeline.

Import App.

Lemma stub_accepts_declared_types : accepts_declared_types Stub.lib.
Proof.
  split; [done|]. split; [done|].
  intros l. change (mapM Stub.str (VStr <$> l) = Some l).
  induction l as [|x l IH]; [done|].
  rewrite fmap_cons. cbn [mapM]. rewrite IH. reflexivity.
Qed.

Lemma adapt_feedback_empty :
  adapt_feedback ∅ =
    list_to_map [
      ("topic", VStr "Unknown Topic"); ("numerical_grade", VInt 0);
      ("letter_grade", VStr "N/A"); ("score_content", VInt 0);
      ("score_organization", VInt 0); ("score_mechanics", VInt 0);
      ("calculation", VStr ""); ("strengths", VList []);
      ("weaknesses", VList []); ("improvement_suggestions", VList []);
      ("mechanics_issues", VList []) ].
Proof. reflexivity. Qed.

Lemma init_defaults (L : Lib) :
  accepts_declared_types L ->
  LessonFeedback_init L (adapt_feedback ∅) = Ret default_feedback.
Proof.
  intros (Hstr & Hint & Hlist). pose proof (Hlist []) as Hnil. simpl in Hnil.
  unfold LessonFeedback_init.
  change (adapt_feedback ∅ !! "topic") with (Some (VStr "Unknown Topic")).
  change (adapt_feedback ∅ !! "numerical_grade") with (Some (VInt 0)).
  change (adapt_feedback ∅ !! "letter_grade") with (Some (VStr "N/A")).
  change (adapt_feedback ∅ !! "score_content") with (Some (VInt 0)).
  change (adapt_feedback ∅ !! "score_organization") with (Some (VInt 0)).
  change (adapt_feedback ∅ !! "score_mechanics") with (Some (VInt 0)).
  change (adapt_feedback ∅ !! "calculation") with (Some (VStr "")).
  change (adapt_feedback ∅ !! "strengths") with (Some (VList [])).
  change (adapt_feedback ∅ !! "weaknesses") with (Some (VList [])).
  change (adapt_feedback ∅ !! "improvement_suggestions") with (Some (VList [])).
  change (adapt_feedback ∅ !! "mechanics_issues") with (Some (VList [])).
  simpl. rewrite !Hstr, !Hint, !Hnil. reflexivity.
Qed.

(** The adapter and the assembler on a reply that renames one field,
    and on one whose grade is a string, which the strict validation of
    the stub rejects. *)
Example renamed_field_is_adapted :
  LessonFeedback_init Stub.lib
    (adapt_feedback
       (list_to_map [("topic", VStr "Photosynthesis"); ("overall_score", VInt 85);
                     ("letter_grade", VStr "B"); ("strengths", VList [VStr "clear"])]))
  = Ret {| topic := "Photosynthesis"; numerical_grade := 85; letter_grade := "B";
           score_content := 0; score_organization := 0; score_mechanics := 0;
           calculation := ""; strengths := ["clear"]; weaknesses := [];
           improvement_suggestions := []; mechanics_issues := [] |}.
Proof. reflexivity. Qed.

Example string_grade_is_rejected :
  LessonFeedback_init Stub.lib
    (adapt_feedback {[ "numerical_grade" := VStr "eighty" ]})
  = Raise ValidationError.
Proof. reflexivity. Qed.

(** With an explanation to grade, the console program sends one request. *)
Example console_sends_one_request :
  llm_calls
    (snd (TeachEval.main Stub.lib (Stub.echo "{}")
            (Stub.start ["Fractions"; "A half is one of two equal parts."; "done"])))
  = [TeachEval.format_messages
       (query_of "Fractions" "A half is one of two equal parts.")].
Proof. reflexivity. Qed.

(** The handler past its first guard, step by step *)
Lemma evaluate_lesson_nonblank (L : Lib) (llm : gateway)
    (topic explanation : string) (w : world) :
  Py.nonempty (Py.strip explanation) = true ->
  evaluate_lesson L llm topic explanation w =
    let request := format_messages (query_of topic explanation) in
    let w' := after_call w request in
    match llm request with
    | Raise e => (Raise e, w')
    | Ret raw_text =>
        if negb (Py.nonempty raw_text) || negb (Py.nonempty (Py.strip raw_text))
        then (Ret (Error "Empty response from LLM."), w')
        else
          match decoded L (extract_json raw_text) with
          | Raise e => (Raise e, w')
          | Ret (VDict d) =>
              match LessonFeedback_init L (adapt_feedback d) with
              | Ret feedback => (Ret (Feedback feedback), w')
              | Raise e => (Raise e, w')
              end
          | Ret _ => (Raise AttributeError, w')
          end
    end.
Proof.
  intros Hne. unfold evaluate_lesson. rewrite Hne. cbn [negb].
  unfold mbind, IO_bind, llm_invoke, after_call. cbv zeta.
  destruct (llm _) as [raw_text|e]; [|done].
  destruct (negb (Py.nonempty raw_text) || negb (Py.nonempty (Py.strip raw_text)));
    [done|].
  unfold decoded.
  by destruct (json_loads L (extract_json raw_text)) as [[]|[]].
Qed.

Lemma strip_nonempty (s : string) :
  Py.nonempty (Py.strip s) = true -> Py.nonempty s = true.
Proof. by destruct s. Qed.

(** C4: on the empty mapping the adapter fills every field with its
    default, and the assembler accepts the result without raising: the
    feedback has grade 0, the three component scores 0, the four lists
    empty, the topic [Unknown Topic] and the letter grade [N/A]. This is
    what the handler returns when the reply holds no span for the
    extractor, whose [{}] decodes to the empty mapping. *)
Theorem empty_mapping_gives_default_feedback (L : Lib) :
  accepts_declared_types L ->
  (exists fb : LessonFeedback,
     LessonFeedback_init L (adapt_feedback ∅) = Ret fb
     /\ numerical_grade fb = 0%Z
     /\ score_content fb = 0%Z /\ score_organization fb = 0%Z
     /\ score_mechanics fb = 0%Z
     /\ strengths fb = [] /\ weaknesses fb = []
     /\ improvement_suggestions fb = [] /\ mechanics_issues fb = []
     /\ topic fb = "Unknown Topic" /\ letter_grade fb = "N/A"
     /\ calculation fb = "")
  /\ (json_loads L "{}" = Ret (VDict ∅) ->
      forall (llm : gateway) (topic explanation raw_text : string) (w : world),
        Py.nonempty (Py.strip explanation) = true ->
        llm (format_messages (query_of topic explanation)) = Ret raw_text ->
        Py.nonempty (Py.strip raw_text) = true ->
        brace_span (Py.strip raw_text) = None ->
        fst (evaluate_lesson L llm topic explanation w)
          = Ret (Feedback default_feedback)).
Proof.
  intros HL. split.
  - exists default_feedback. split; [by apply init_defaults|]. repeat split.
  - intros Hloads llm topic explanation raw_text w Hexp Hllm Hraw Hspan.
    rewrite evaluate_lesson_nonblank by done. cbv zeta.
    rewrite Hllm, Hraw, (strip_nonempty _ Hraw).
    rewrite extract_json_brace_span, Hspan. cbn [default].
    unfold decoded. rewrite Hloads. by rewrite init_defaults.
Qed.

Lemma empty_mapping_gives_default_feedback_witness :
  LessonFeedback_init Stub.lib (adapt_feedback ∅) = Ret default_feedback
  /\ fst (evaluate_lesson Stub.lib (Stub.echo "I cannot grade this.")
            "Fractions" "A half is one of two equal parts." (Stub.start []))
     = Ret (Feedback default_feedback).
Proof.
  destruct (empty_mapping_gives_default_feedback Stub.lib
              stub_accepts_declared_types) as [_ Hrun].
  split; [reflexivity|].
  apply (Hrun eq_refl (Stub.echo "I cannot grade this.") "Fractions"
           "A half is one of two equal parts." "I cannot grade this.");
    reflexivity.
Defined.

Lemma get_explanation_keeps_calls (w0 w1 : world) (r : outcome (string * string)) :
  TeachEval.get_explanation_from_user w0 = (r, w1) ->
  llm_calls w1 = llm_calls w0.
Proof.
  unfold TeachEval.get_explanation_from_user, TeachEval.read_explanation,
    TeachEval.print, TeachEval.write, TeachEval.input, mbind, IO_bind, mret, IO_ret.
  simpl. destruct (stdin w0) as [|line rest]; simpl.
  - by intros [= <- <-].
  - destruct (TeachEval.read_lines rest []) as [lines rest'].
    by intros [= <- <-].
Qed.

(** C5: an explanation that is empty once trimmed is answered at once
    with the empty-input message and no request reaches the model. The
    web handler returns the error context and leaves the world as it
    was; the console program prints its message and ends with the calls
    to the model as they were before it started. *)
Theorem blank_explanation_makes_no_call (L : Lib) (llm : gateway)
    (topic explanation : string) :
  Py.strip explanation = "" ->
  (forall w : world,
     evaluate_lesson L llm topic explanation w
       = (Ret (Error "Explanation cannot be empty."), w))
  /\ (forall w0 w1 : world,
        TeachEval.get_explanation_from_user w0 = (Ret (topic, explanation), w1) ->
        TeachEval.main L llm w0
          = (Ret tt,
             {| stdin := stdin w1;
                stdout := stdout w1 ++ ["No explanation provided. Exiting." ++ Py.nl];
                llm_calls := llm_calls w0 |})).
Proof.
  intros Hblank. split.
  - intros w. unfold evaluate_lesson. by rewrite Hblank.
  - intros w0 w1 Hread. unfold TeachEval.main, mbind, IO_bind.
    rewrite Hread, Hblank. cbn [Py.nonempty negb].
    unfold TeachEval.print, TeachEval.write.
    by rewrite (get_explanation_keeps_calls _ _ _ Hread).
Qed.

Lemma blank_explanation_makes_no_call_witness :
  Py.strip "   " = ""
  /\ evaluate_lesson Stub.lib (Stub.echo "{}") "Fractions" "   " (Stub.start [])
       = (Ret (Error "Explanation cannot be empty."), Stub.start [])
  /\ llm_calls
       (snd (TeachEval.main Stub.lib (Stub.echo "{}")
               (Stub.start ["Fractions"; "   "; "DONE"]))) = [].
Proof.
  pose proof (blank_explanation_makes_no_call Stub.lib (Stub.echo "{}")
                "Fractions" "   " eq_refl) as [Hweb Hconsole].
  split; [reflexivity|]. split; [apply Hweb|].
  rewrite (Hconsole (Stub.start ["Fractions"; "   "; "DONE"])
             (snd (TeachEval.get_explanation_from_user
                     (Stub.start ["Fractions"; "   "; "DONE"]))) eq_refl).
  reflexivity.
Defined.

(** X17: when [json.loads] raises [json.JSONDecodeError] on the extracted
    span, the handler goes on with the empty mapping in place of the
    decoded one, through the adapter and the assembler, and hands the
    default feedback to the template; no exception leaves the handler. *)
Theorem decode_failure_gives_default_feedback (L : Lib) (llm : gateway)
    (topic explanation raw_text : string) (w : world) :
  accepts_declared_types L ->
  Py.nonempty (Py.strip explanation) = true ->
  llm (format_messages (query_of topic explanation)) = Ret raw_text ->
  Py.nonempty (Py.strip raw_text) = true ->
  json_loads L (extract_json raw_text) = Raise JSONDecodeError ->
  fst (evaluate_lesson L llm topic explanation w) = Ret (Feedback default_feedback).
Proof.
  intros HL Hexp Hllm Hraw Hdecode.
  rewrite evaluate_lesson_nonblank by done. cbv zeta. unfold decoded.
  rewrite Hllm, Hraw, (strip_nonempty _ Hraw), Hdecode. simpl.
  by rewrite init_defaults.
Qed.

Lemma decode_failure_gives_default_feedback_witness :
  fst (evaluate_lesson Stub.lib (Stub.echo "Sure! {topic: Fractions,}")
         "Fractions" "A half is one of two equal parts." (Stub.start []))
  = Ret (Feedback default_feedback).
Proof.
  apply (decode_failure_gives_default_feedback Stub.lib
           (Stub.echo "Sure! {topic: Fractions,}") "Fractions"
           "A half is one of two equal parts." "Sure! {topic: Fractions,}").
  - apply stub_accepts_declared_types.
  - reflexivity.
  - reflexivity.
  - reflexivity.
  - reflexivity.
Defined.

(** C6: the handler catches [json.JSONDecodeError] and nothing else.
    When [json.loads] gives up on the extracted span with another
    exception, as it does with [ValueError] on a span that holds an
    integer of more than 4300 digits and with [RecursionError] on a span
    nested too deep, be the span JSON or not, that exception leaves the
    handler after the one request and no feedback is built. *)
Theorem uncaught_decode_exception_leaves_handler (L : Lib) (llm : gateway)
    (topic explanation raw_text : string) (e : exn) (w : world) :
  Py.nonempty (Py.strip explanation) = true ->
  llm (format_messages (query_of topic explanation)) = Ret raw_text ->
  Py.nonempty (Py.strip raw_text) = true ->
  json_loads L (extract_json raw_text) = Raise e ->
  e <> JSONDecodeError ->
  evaluate_lesson L llm topic explanation w
    = (Raise e, after_call w (format_messages (query_of topic explanation))).
Proof.
  intros Hexp Hllm Hraw Hdecode He.
  rewrite evaluate_lesson_nonblank by done. cbv zeta. unfold decoded.
  rewrite Hllm, Hraw, (strip_nonempty _ Hraw), Hdecode. simpl.
  by destruct e.
Qed.

Lemma uncaught_decode_exception_leaves_handler_witness :
  evaluate_lesson Stub.digit_limited (Stub.echo Stub.long_integer_reply)
    "Fractions" "A half is one of two equal parts." (Stub.start [])
  = (Raise ValueError,
     after_call (Stub.start [])
       (format_messages (query_of "Fractions" "A half is one of two equal parts."))).
Proof.
  apply (uncaught_decode_exception_leaves_handler Stub.digit_limited
           (Stub.echo Stub.long_integer_reply) "Fractions"
           "A half is one of two equal parts." Stub.long_integer_reply ValueError).
  - reflexivity.
  - reflexivity.
  - vm_compute. reflexivity.
  - vm_compute. reflexivity.
  - discriminate.
Defined.

(** C8: what the handler returns after the gateway has answered depends
    on the raw text of the answer alone. Two runs that receive the same
    raw text return the same result, the same feedback included,
    whatever the topic, the explanation, the model behind the gateway
    and the state of the process in each run. *)
Theorem same_raw_text_same_feedback (L : Lib) (llm1 llm2 : gateway)
    (topic1 explanation1 topic2 explanation2 raw_text : string) (w1 w2 : world) :
  Py.nonempty (Py.strip explanation1) = true ->
  Py.nonempty (Py.strip explanation2) = true ->
  llm1 (format_messages (query_of topic1 explanation1)) = Ret raw_text ->
  llm2 (format_messages (query_of topic2 explanation2)) = Ret raw_text ->
  fst (evaluate_lesson L llm1 topic1 explanation1 w1)
    = fst (evaluate_lesson L llm2 topic2 explanation2 w2).
Proof.
  intros He1 He2 Hr1 Hr2.
  rewrite !evaluate_lesson_nonblank by done. cbv zeta. rewrite Hr1, Hr2.
  destruct (negb (Py.nonempty raw_text) || negb (Py.nonempty (Py.strip raw_text)));
    [done|].
  destruct (decoded L (extract_json raw_text)) as [[]|]; try done.
  by destruct (LessonFeedback_init L (adapt_feedback d)).
Qed.

Lemma same_raw_text_same_feedback_witness :
  fst (evaluate_lesson Stub.lib (Stub.echo "ok {}") "Fractions" "Halves."
         (Stub.start []))
  = fst (evaluate_lesson Stub.lib (fun _ => Ret "ok {}") "Verbs" "Doing words."
           (Stub.start ["unread"])).
Proof.
  apply (same_raw_text_same_feedback Stub.lib (Stub.echo "ok {}")
           (fun _ => Ret "ok {}") "Fractions" "Halves." "Verbs" "Doing words."
           "ok {}"); reflexivity.
Defined.

End Pipeline.

(** ** The prompt *)

Section Prompt.








(** Neither system message has a replacement field to fill. *)
Lemma system_text_has_no_field :
  Py.find "{" App.system_text = None /\ Py.find "}" App.system_text = None
  /\ Py.find "{" TeachEval.system_text = None
  /\ Py.find "}" TeachEval.system_text = None.
Proof. repeat split; vm_compute; reflexivity. Qed.



(** The system message of [app.py] writes the content weight 0.8: the
    request for this topic and explanation does not hold the text 0.80. *)
Lemma web_prompt_lacks_0_80 :
  request_contains "0.80"
    (App.format_messages
       (query_of "Fractions" "A half is one of two equal parts.")) = false.
Proof. vm_compute. reflexivity. Qed.

End Prompt.

(** ** More on the extractor *)

Section ExtractorShape.

Abbreviation close' := (Re.match_here [Re.DotStar; Re.Lit "}"%char]).

Lemma str_app_nil_r (s : string) : s ++ "" = s.
Proof.
  induction s as [|a s IH]; [done|].
  change (String a s ++ "") with (String a (s ++ "")). by rewrite IH.
Qed.

Lemma str_app_assoc (s t u : string) : (s ++ t) ++ u = s ++ t ++ u.
Proof.
  induction s as [|a s IH]; [done|].
  change ((String a s ++ t) ++ u) with (String a ((s ++ t) ++ u)).
  by rewrite IH.
Qed.

Lemma find_cons_None (c a : ascii) (s : string) :
  Py.find c (String a s) = None -> Ascii.eqb a c = false /\ Py.find c s = None.
Proof.
  simpl. destruct (Ascii.eqb a c); [done|]. by destruct (Py.find c s).
Qed.

Lemma find_app_None (c : ascii) (s t : string) :
  Py.find c s = None -> Py.find c t = None -> Py.find c (s ++ t) = None.
Proof.
  induction s as [|a s IH]; [done|]. intros Hs Ht.
  apply find_cons_None in Hs as [Ha Hs].
  change (String a s ++ t) with (String a (s ++ t)).
  cbn [Py.find]. by rewrite Ha, IH.
Qed.

Lemma rfind_None (c : ascii) (s : string) :
  Py.find c s = None -> Py.rfind c s = None.
Proof.
  induction s as [|a s IH]; [done|]. intros Hs.
  apply find_cons_None in Hs as [Ha Hs]. simpl. by rewrite IH, Ha.
Qed.

(** What [.*\}] matches ends with the closing brace. *)
Lemma close_ends (s r : string) : close' s = Some r -> exists m, r = m ++ "}".
Proof.
  revert r. induction s as [|a s IH]; intros r; [done|].
  rewrite close_step. destruct (close' s) as [r'|].
  - intros [= <-]. destruct (IH r' eq_refl) as [m ->]. by exists (String a m).
  - destruct (Ascii.eqb a "}") eqn:Ha; [|done].
    apply Ascii.eqb_eq in Ha as ->. intros [= <-]. by exists "".
Qed.

Lemma search_shape (s r : string) :
  Re.search App.json_pattern s = Some r -> exists m, r = "{" ++ m ++ "}".
Proof.
  induction s as [|a s IH]; [done|].
  cbn [Re.search]. rewrite match_here_json.
  destruct (Ascii.eqb a "{") eqn:Ha.
  - apply Ascii.eqb_eq in Ha as ->.
    destruct (close' s) as [r'|] eqn:Hc; simpl.
    + intros [= <-]. destruct (close_ends _ _ Hc) as [m ->]. by exists m.
    + exact IH.
  - exact IH.
Qed.

(** A match is a part of the text. *)
Lemma close_prefix (s r : string) : close' s = Some r -> exists b, s = r ++ b.
Proof.
  revert r. induction s as [|a s IH]; intros r; [done|].
  rewrite close_step. destruct (close' s) as [r'|].
  - intros [= <-]. destruct (IH r' eq_refl) as [b Hb]. exists b.
    change (String a r' ++ b) with (String a (r' ++ b)). by rewrite <- Hb.
  - destruct (Ascii.eqb a "}"); [|done]. intros [= <-]. by exists s.
Qed.

Lemma search_part (s r : string) :
  Re.search App.json_pattern s = Some r -> exists a b, s = a ++ r ++ b.
Proof.
  induction s as [|c s IH]; [done|].
  cbn [Re.search]. rewrite match_here_json.
  assert (Hlater : Re.search App.json_pattern s = Some r ->
                   exists a b, String c s = a ++ r ++ b).
  { intros H. destruct (IH H) as (a & b & ->). by exists (String c a), b. }
  destruct (Ascii.eqb c "{"); [|done].
  destruct (close' s) as [r'|] eqn:Hc; simpl; [|done].
  intros [= <-]. destruct (close_prefix _ _ Hc) as [b ->]. by exists "", b.
Qed.

(** Text without an opening brace in front of the match, and text without
    a closing brace behind it, have no part in the search. *)
Lemma search_skip_prefix (pre t : string) :
  Py.find "{" pre = None ->
  Re.search App.json_pattern (pre ++ t) = Re.search App.json_pattern t.
Proof.
  induction pre as [|a pre IH]; [done|]. intros Hpre.
  apply find_cons_None in Hpre as [Ha Hpre].
  change (String a pre ++ t) with (String a (pre ++ t)).
  cbn [Re.search]. rewrite match_here_json, Ha. by apply IH.
Qed.

Lemma close_app (t post : string) :
  Py.find "}" post = None -> close' (t ++ post) = close' t.
Proof.
  intros Hpost. induction t as [|a t IH].
  - change ("" ++ post) with post.
    by rewrite close_rfind, (rfind_None _ _ Hpost).
  - change (String a t ++ post) with (String a (t ++ post)).
    by rewrite !close_step, IH.
Qed.

Lemma search_skip_suffix (t post : string) :
  Py.find "}" post = None ->
  Re.search App.json_pattern (t ++ post) = Re.search App.json_pattern t.
Proof.
  intros Hpost. induction t as [|a t IH].
  - change ("" ++ post) with post.
    by rewrite search_no_close by (by apply rfind_None).
  - change (String a t ++ post) with (String a (t ++ post)).
    cbn [Re.search]. rewrite !match_here_json, close_app by done.
    destruct (Ascii.eqb a "{"); [|done].
    by destruct (close' t).
Qed.

Lemma close_whole (m : string) : close' (m ++ "}") = Some (m ++ "}").
Proof.
  induction m as [|a m IH]; [done|].
  change (String a m ++ "}") with (String a (m ++ "}")).
  by rewrite close_step, IH.
Qed.

Lemma search_whole (m : string) :
  Re.search App.json_pattern ("{" ++ m ++ "}") = Some ("{" ++ m ++ "}").
Proof.
  change ("{" ++ m ++ "}") with (String "{" (m ++ "}")).
  cbn [Re.search]. by rewrite match_here_json, close_whole.
Qed.

Lemma rev_onto_app (s acc : string) :
  Py.rev_onto s acc = Py.rev_onto s "" ++ acc.
Proof.
  revert acc. induction s as [|a s IH]; intros acc; [done|].
  simpl. rewrite (IH (String a acc)), (IH (String a "")).
  by rewrite str_app_assoc.
Qed.

Lemma rev_cons (a : ascii) (s : string) :
  Py.rev (String a s) = Py.rev s ++ String a "".
Proof. unfold Py.rev. simpl. apply rev_onto_app. Qed.

Lemma rev_app (s t : string) : Py.rev (s ++ t) = Py.rev t ++ Py.rev s.
Proof.
  induction s as [|a s IH]; [by rewrite str_app_nil_r|].
  change (String a s ++ t) with (String a (s ++ t)).
  by rewrite !rev_cons, IH, str_app_assoc.
Qed.

Lemma rev_involutive (s : string) : Py.rev (Py.rev s) = s.
Proof.
  induction s as [|a s IH]; [done|]. by rewrite rev_cons, rev_app, IH.
Qed.

End ExtractorShape.

(** What [strip] removes holds no brace. *)
Section StripSplit.

Variables (c : ascii) (p1 : ascii -> bool) (p2 : ascii -> ascii -> bool)
  (p3 : ascii -> ascii -> ascii -> bool).
Hypothesis spare1 : forall a, p1 a = true -> Ascii.eqb a c = false.
Hypothesis spare2 : forall a b, p2 a b = true ->
  Ascii.eqb a c = false /\ Ascii.eqb b c = false.
Hypothesis spare3 : forall a b d, p3 a b d = true ->
  Ascii.eqb a c = false /\ Ascii.eqb b c = false /\ Ascii.eqb d c = false.

Lemma skip_space_split (n : nat) :
  forall s, (String.length s <= n)%nat ->
    exists pre, s = pre ++ Py.skip_space p1 p2 p3 s /\ Py.find c pre = None.
Proof.
  induction n as [|n IH]; intros s Hn.
  - destruct s; [by exists ""|simpl in Hn; lia].
  - destruct s as [|a s1]; [by exists ""|]. simpl in Hn.
    cbn [Py.skip_space]. destruct (p1 a) eqn:H1.
    { destruct (IH s1 ltac:(lia)) as (pre & Hs & Hpre).
      exists (String a pre). split.
      - change (String a pre ++ ?t) with (String a (pre ++ t)). by rewrite <- Hs.
      - cbn [Py.find]. by rewrite (spare1 _ H1), Hpre. }
    destruct s1 as [|b s2]; [by exists ""|]. simpl in Hn.
    destruct (p2 a b) eqn:H2.
    { destruct (IH s2 ltac:(lia)) as (pre & Hs & Hpre).
      destruct (spare2 _ _ H2) as [Ha Hb].
      exists (String a (String b pre)). split.
      - change (String a (String b pre) ++ ?t)
          with (String a (String b (pre ++ t))). by rewrite <- Hs.
      - cbn [Py.find]. by rewrite Ha, Hb, Hpre. }
    destruct s2 as [|d s3]; [by exists ""|]. simpl in Hn.
    destruct (p3 a b d) eqn:H3; [|by exists ""].
    destruct (IH s3 ltac:(lia)) as (pre & Hs & Hpre).
    destruct (spare3 _ _ _ H3) as (Ha & Hb & Hd).
    exists (String a (String b (String d pre))). split.
    + change (String a (String b (String d pre)) ++ ?t)
        with (String a (String b (String d (pre ++ t)))). by rewrite <- Hs.
    + cbn [Py.find]. by rewrite Ha, Hb, Hd, Hpre.
Qed.

End StripSplit.

Ltac spare_brace H :=
  unfold Py.space1, Py.space2, Py.space3 in H;
  repeat match type of H with
         | context [Py.byte_is ?x ?n] => is_var x; destruct (Py.byte_is x n)
         | context [Py.byte_in ?x ?lo ?hi] => is_var x; destruct (Py.byte_in x lo hi)
         end;
  vm_compute in H; discriminate.

Ltac spare_case a c H :=
  destruct (Ascii.eqb_spec a c) as [->|]; [exfalso; spare_brace H|reflexivity].

Section ExtractorTrim.

Lemma lstrip_split (s : string) :
  exists pre, s = pre ++ Py.lstrip s /\ Py.find "{" pre = None.
Proof.
  apply (skip_space_split "{" Py.space1 Py.space2 Py.space3) with (n := String.length s);
    [..|done].
  - intros a H. spare_case a "{"%char H.
  - intros a b H. split; [spare_case a "{"%char H|spare_case b "{"%char H].
  - intros a b d H.
    split; [spare_case a "{"%char H|split; [spare_case b "{"%char H|spare_case d "{"%char H]].
Qed.

Lemma rstrip_split (s : string) :
  exists post, s = Py.rstrip s ++ post /\ Py.find "}" post = None.
Proof.
  destruct (skip_space_split "}" Py.space1 (fun b a => Py.space2 a b)
              (fun d b a => Py.space3 a b d)) with (n := String.length (Py.rev s))
    (s := Py.rev s) as (pre & Hs & Hpre); [..|done|].
  - intros a H. spare_case a "}"%char H.
  - intros a b H. split; [spare_case a "}"%char H|spare_case b "}"%char H].
  - intros a b d H.
    split; [spare_case a "}"%char H|split; [spare_case b "}"%char H|spare_case d "}"%char H]].
  - exists (Py.rev pre). split.
    + unfold Py.rstrip. rewrite <- rev_app, <- Hs. by rewrite rev_involutive.
    + unfold Py.rev. by apply find_rev_onto.
Qed.

(** The search over the trimmed text is the search over the text. *)
Lemma search_strip (s : string) :
  Re.search App.json_pattern (Py.strip s) = Re.search App.json_pattern s.
Proof.
  unfold Py.strip.
  destruct (lstrip_split s) as (pre & Hpre & Hopen).
  destruct (rstrip_split (Py.lstrip s)) as (post & Hpost & Hclose).
  transitivity (Re.search App.json_pattern (Py.lstrip s)).
  - symmetry. etransitivity; [exact (f_equal _ Hpost)|].
    by apply search_skip_suffix.
  - symmetry. etransitivity; [exact (f_equal _ Hpre)|].
    by apply search_skip_prefix.
Qed.

(** X1: whatever the text, the result of [extract_json] opens with a
    brace and closes with a brace: it is either a span of the text or the
    literal [{}]. *)
Theorem extract_json_is_braced (text : string) :
  exists m : string, App.extract_json text = "{" ++ m ++ "}".
Proof.
  unfold App.extract_json.
  destruct (Re.search _ _) as [r|] eqn:Hr; [by eapply search_shape|].
  by exists "".
Qed.

(** X2: trimming has no part in the result: [extract_json] returns the
    span from the first opening brace of the text as given to its last
    closing brace, or [{}]. *)
Theorem extract_json_ignores_trimming (text : string) :
  App.extract_json text = default "{}" (brace_span text).
Proof.
  unfold App.extract_json. rewrite search_strip, search_brace_span.
  by destruct (brace_span text).
Qed.

(** X3: an object wrapped in other text is recovered as it stands, when
    the text in front has no opening brace and the text behind has no
    closing brace; prose and markdown fences around the object are
    dropped, whatever the object holds between its outer braces. *)
Theorem extract_json_unwraps (pre m post : string) :
  Py.find "{" pre = None ->
  Py.find "}" post = None ->
  App.extract_json (pre ++ ("{" ++ m ++ "}") ++ post) = "{" ++ m ++ "}".
Proof.
  intros Hpre Hpost. unfold App.extract_json.
  rewrite search_strip, search_skip_prefix, search_skip_suffix by done.
  by rewrite search_whole.
Qed.

Lemma extract_json_unwraps_witness :
  App.extract_json
    (("Here you go:" ++ Py.nl ++ "```json" ++ Py.nl)
     ++ ("{" ++ "topic: {Photosynthesis}, grade: 85" ++ "}")
     ++ (Py.nl ++ "```"))
  = "{" ++ "topic: {Photosynthesis}, grade: 85" ++ "}".
Proof.
  apply (extract_json_unwraps ("Here you go:" ++ Py.nl ++ "```json" ++ Py.nl)
           "topic: {Photosynthesis}, grade: 85" (Py.nl ++ "```"));
    reflexivity.
Defined.

(** X4: extracting from what was extracted changes nothing. *)
Theorem extract_json_idempotent (text : string) :
  App.extract_json (App.extract_json text) = App.extract_json text.
Proof.
  unfold App.extract_json at 2 3.
  destruct (Re.search _ _) as [r|] eqn:Hr; [|reflexivity].
  destruct (search_shape _ _ Hr) as [m ->].
  unfold App.extract_json. by rewrite search_strip, search_whole.
Qed.

(** X5: the extractor makes up no text: its result is a part of the text
    it was given, unless it is the literal [{}]. *)
Theorem extract_json_is_part_of_text (text : string) :
  App.extract_json text = "{}"
  \/ exists a b : string, text = a ++ App.extract_json text ++ b.
Proof.
  unfold App.extract_json. rewrite search_strip.
  destruct (Re.search _ _) as [r|] eqn:Hr; [right|by left].
  by apply search_part.
Qed.

End ExtractorTrim.

(** ** More on the adapter and the assembler *)

Ltac find_in_list :=
  solve [repeat first [apply list_elem_of_here | apply list_elem_of_further]].

Section AdapterMore.

Import App.

Lemma dom_adapt_feedback (d : gmap string value) :
  dom (adapt_feedback d) = list_to_set schema_fields.
Proof. unfold adapt_feedback. by rewrite dom_list_to_map_L. Qed.

(** X6: a key that is neither a field nor an alias has no influence on
    the adapted mapping, whatever value it holds. *)
Theorem adapt_feedback_ignores_other_keys
    (d : gmap string value) (k : string) (v : value) :
  k ∉ adapter_keys ->
  adapt_feedback (<[k := v]> d) = adapt_feedback d.
Proof.
  unfold adapter_keys, schema_fields. simpl app.
  rewrite !not_elem_of_cons. intros H. destruct_and!.
  unfold adapt_feedback, or, get, get_or.
  by rewrite !lookup_insert_ne by done.
Qed.

Lemma adapt_feedback_ignores_other_keys_witness :
  adapt_feedback (<["confidence" := VFloat S754_nan]> {[ "topic" := VStr "Verbs" ]})
  = adapt_feedback {[ "topic" := VStr "Verbs" ]}.
Proof.
  apply adapt_feedback_ignores_other_keys.
  unfold adapter_keys, schema_fields. simpl app.
  rewrite !not_elem_of_cons. repeat split; try discriminate.
  apply not_elem_of_nil.
Defined.

Lemma plain_field_kept (d : gmap string value) (f : string) (dflt v : value) :
  (f, dflt) ∈ plain_fields -> d !! f = Some v -> adapt_feedback d !! f = Some v.
Proof.
  intros Hin Hv. rewrite (lookup_plain d f dflt Hin). unfold get_or. by rewrite Hv.
Qed.

Lemma aliased_field_kept (d : gmap string value) (f alias : string) (dflt v : value) :
  (f, alias, dflt) ∈ aliased_fields -> d !! f = Some v -> truthy v = true ->
  adapt_feedback d !! f = Some v.
Proof.
  intros Hin Hv Ht. rewrite (lookup_aliased d f alias dflt Hin).
  unfold or, get. rewrite Hv. simpl. by rewrite Ht.
Qed.

Lemma schema_field_kind (k : string) :
  k ∈ schema_fields ->
  (exists dflt, (k, dflt) ∈ plain_fields)
  \/ (exists alias dflt, (k, alias, dflt) ∈ aliased_fields).
Proof.
  unfold schema_fields. rewrite !elem_of_cons, elem_of_nil.
  intros [->|[->|[->|[->|[->|[->|[->|[->|[->|[->|[->|[]]]]]]]]]]]];
    first [ left; eexists; unfold plain_fields; find_in_list
          | right; eexists _, _; unfold aliased_fields; find_in_list ].
Qed.

(** X7: a mapping that has the fields of the schema as its keys, no
    other key, and truthy values under the five fields with an alias is
    returned as it is. *)
Theorem adapt_feedback_keeps_conforming (d : gmap string value) :
  dom d = list_to_set schema_fields ->
  (forall f alias dflt, (f, alias, dflt) ∈ aliased_fields ->
     exists v, d !! f = Some v /\ truthy v = true) ->
  adapt_feedback d = d.
Proof.
  intros Hdom Htruthy. apply map_eq. intros k.
  destruct (decide (k ∈ schema_fields)) as [Hin|Hout].
  - assert (Hsome : is_Some (d !! k)).
    { apply elem_of_dom. rewrite Hdom. by apply elem_of_list_to_set. }
    destruct Hsome as [v Hv]. rewrite Hv.
    destruct (schema_field_kind k Hin) as [[dflt Hp]|(alias & dflt & Ha)].
    + by eapply plain_field_kept.
    + destruct (Htruthy _ _ _ Ha) as (v' & Hv' & Ht).
      rewrite Hv in Hv'. injection Hv' as <-. by eapply aliased_field_kept.
  - transitivity (@None value).
    + apply not_elem_of_dom. rewrite dom_adapt_feedback.
      by rewrite elem_of_list_to_set.
    + symmetry. apply not_elem_of_dom. rewrite Hdom.
      by rewrite elem_of_list_to_set.
Qed.

Lemma adapt_feedback_keeps_conforming_witness :
  adapt_feedback (to_dict {| topic := ""; numerical_grade := 85; letter_grade := "";
                             score_content := 90; score_organization := 70;
                             score_mechanics := 60; calculation := "0.8*90";
                             strengths := []; weaknesses := [];
                             improvement_suggestions := []; mechanics_issues := [] |})
  = to_dict {| topic := ""; numerical_grade := 85; letter_grade := "";
               score_content := 90; score_organization := 70;
               score_mechanics := 60; calculation := "0.8*90";
               strengths := []; weaknesses := [];
               improvement_suggestions := []; mechanics_issues := [] |}.
Proof.
  apply adapt_feedback_keeps_conforming.
  - unfold to_dict. by rewrite dom_list_to_map_L.
  - unfold aliased_fields. intros f alias dflt. rewrite !elem_of_cons, elem_of_nil.
    intros [H|[H|[H|[H|[H|[]]]]]]; injection H as -> -> ->;
      eexists; (split; [reflexivity|reflexivity]).
Defined.

End AdapterMore.

(** ** More on the web handler *)

Section HandlerMore.

Import App.

Lemma validate_or_int (L : Lib) (n : Z) :
  accepts_declared_types L -> validate_int L (or (VInt n) (VInt 0)) = Some n.
Proof.
  intros (_ & Hint & _). unfold or. simpl.
  destruct (n =? 0)%Z eqn:Hn; simpl; [|apply Hint].
  apply Z.eqb_eq in Hn as ->. apply Hint.
Qed.

Lemma validate_or_str (L : Lib) (s : string) :
  accepts_declared_types L -> validate_str L (or (VStr s) (VStr "")) = Some s.
Proof. intros (Hstr & _). unfold or. destruct s; simpl; apply Hstr. Qed.

(** The adapter and the assembler read back a feedback that is spelled
    out under the names of the schema. *)
Lemma init_to_dict (L : Lib) (fb : LessonFeedback) :
  accepts_declared_types L ->
  LessonFeedback_init L (adapt_feedback (to_dict fb)) = Ret fb.
Proof.
  intros HL. pose proof HL as (Hstr & Hint & Hlist).
  destruct fb as [t ng lg sc so sm ca st we im mi].
  unfold LessonFeedback_init.
  change (adapt_feedback (to_dict ?fb) !! "topic")
    with (Some (VStr (topic fb))).
  change (adapt_feedback (to_dict ?fb) !! "numerical_grade")
    with (Some (or (VInt (numerical_grade fb)) (VInt 0))).
  change (adapt_feedback (to_dict ?fb) !! "letter_grade")
    with (Some (VStr (letter_grade fb))).
  change (adapt_feedback (to_dict ?fb) !! "score_content")
    with (Some (or (VInt (score_content fb)) (VInt 0))).
  change (adapt_feedback (to_dict ?fb) !! "score_organization")
    with (Some (or (VInt (score_organization fb)) (VInt 0))).
  change (adapt_feedback (to_dict ?fb) !! "score_mechanics")
    with (Some (or (VInt (score_mechanics fb)) (VInt 0))).
  change (adapt_feedback (to_dict ?fb) !! "calculation")
    with (Some (or (VStr (calculation fb)) (VStr ""))).
  change (adapt_feedback (to_dict ?fb) !! "strengths")
    with (Some (VList (VStr <$> strengths fb))).
  change (adapt_feedback (to_dict ?fb) !! "weaknesses")
    with (Some (VList (VStr <$> weaknesses fb))).
  change (adapt_feedback (to_dict ?fb) !! "improvement_suggestions")
    with (Some (VList (VStr <$> improvement_suggestions fb))).
  change (adapt_feedback (to_dict ?fb) !! "mechanics_issues")
    with (Some (VList (VStr <$> mechanics_issues fb))).
  cbn [topic numerical_grade letter_grade score_content score_organization
       score_mechanics calculation strengths weaknesses
       improvement_suggestions mechanics_issues mbind option_bind].
  rewrite !Hstr, !Hlist, !validate_or_int, validate_or_str by done.
  reflexivity.
Qed.

(** X8: a reply that decodes to the fields of a feedback under the names
    of the schema is handed to the template as that very feedback; the
    fall-through on falsy values does no harm here, a grade of 0 and an
    empty calculation included. *)
Theorem conforming_reply_is_read_back (L : Lib) (llm : gateway)
    (topic explanation raw_text : string) (fb : LessonFeedback) (w : world) :
  accepts_declared_types L ->
  Py.nonempty (Py.strip explanation) = true ->
  llm (format_messages (query_of topic explanation)) = Ret raw_text ->
  Py.nonempty (Py.strip raw_text) = true ->
  json_loads L (extract_json raw_text) = Ret (VDict (to_dict fb)) ->
  fst (evaluate_lesson L llm topic explanation w) = Ret (Feedback fb).
Proof.
  intros HL Hexp Hllm Hraw Hdecode.
  rewrite evaluate_lesson_nonblank by done. cbv zeta.
  unfold decoded. rewrite Hllm, Hraw, (strip_nonempty _ Hraw), Hdecode.
  cbn -[LessonFeedback_init adapt_feedback to_dict].
  by rewrite init_to_dict.
Qed.

Lemma reading_accepts_declared_types (fb : LessonFeedback) :
  accepts_declared_types (reading fb).
Proof.
  destruct stub_accepts_declared_types as (Hs & Hi & Hl).
  split; [exact Hs|]. split; [exact Hi|exact Hl].
Qed.

Lemma conforming_reply_is_read_back_witness :
  fst (evaluate_lesson (reading sample_feedback) (Stub.echo "```{...}```")
         "Photosynthesis" "Plants make sugar from light." (Stub.start []))
  = Ret (Feedback sample_feedback).
Proof.
  apply (conforming_reply_is_read_back (reading sample_feedback)
           (Stub.echo "```{...}```") "Photosynthesis"
           "Plants make sugar from light." "```{...}```").
  - apply reading_accepts_declared_types.
  - reflexivity.
  - reflexivity.
  - reflexivity.
  - reflexivity.
Defined.

Ltac field_present f v E :=
  match goal with
  | |- context [adapt_feedback ?d !! f] =>
      destruct (adapt_feedback d !! f) as [v|] eqn:E;
      [| exfalso; apply not_elem_of_dom in E; apply E;
         rewrite dom_adapt_feedback, elem_of_list_to_set;
         unfold schema_fields; find_in_list ]
  end.

Ltac field_checked L check v f :=
  let V := fresh "V" in
  destruct (check L v) eqn:V; simpl;
  [| intros [= <-]; split; [reflexivity|];
     exists f, v; split; [assumption|];
     unfold rejected;
     first [ left; split; [find_in_list|exact V]
           | right; left; split; [find_in_list|exact V]
           | right; right; split; [find_in_list|exact V] ] ].

(** X9: the adapter supplies every field the assembler requires, so the
    assembler never fails for a missing field: when it raises, the
    exception is the validation error, and some adapted field holds a
    value that the validation of its declared type turns down. *)
Theorem assembler_fails_on_a_rejected_value
    (L : Lib) (d : gmap string value) (e : exn) :
  LessonFeedback_init L (adapt_feedback d) = Raise e ->
  e = ValidationError
  /\ exists f v, adapt_feedback d !! f = Some v /\ rejected L f v.
Proof.
  unfold LessonFeedback_init.
  field_present "topic" v1 E1.
  field_present "numerical_grade" v2 E2.
  field_present "letter_grade" v3 E3.
  field_present "score_content" v4 E4.
  field_present "score_organization" v5 E5.
  field_present "score_mechanics" v6 E6.
  field_present "calculation" v7 E7.
  field_present "strengths" v8 E8.
  field_present "weaknesses" v9 E9.
  field_present "improvement_suggestions" v10 E10.
  field_present "mechanics_issues" v11 E11.
  simpl.
  field_checked L validate_str v1 "topic".
  field_checked L validate_int v2 "numerical_grade".
  field_checked L validate_str v3 "letter_grade".
  field_checked L validate_int v4 "score_content".
  field_checked L validate_int v5 "score_organization".
  field_checked L validate_int v6 "score_mechanics".
  field_checked L validate_str v7 "calculation".
  field_checked L validate_list_str v8 "strengths".
  field_checked L validate_list_str v9 "weaknesses".
  field_checked L validate_list_str v10 "improvement_suggestions".
  field_checked L validate_list_str v11 "mechanics_issues".
  discriminate.
Qed.

Lemma assembler_fails_on_a_rejected_value_witness :
  exists f v,
    adapt_feedback {[ "overall_score" := VNone ]} !! f = Some v
    /\ rejected Stub.lib f v.
Proof.
  apply (assembler_fails_on_a_rejected_value Stub.lib
           {[ "overall_score" := VNone ]} ValidationError).
  reflexivity.
Defined.

(** X10: when the reply is empty or white space only, the handler
    answers with the empty-response message once the one request is
    sent; the reply is neither decoded nor validated, so the answer is
    the same for every decoder and validation. *)
Theorem blank_reply_is_reported (L : Lib) (llm : gateway)
    (topic explanation raw_text : string) (w : world) :
  Py.nonempty (Py.strip explanation) = true ->
  llm (format_messages (query_of topic explanation)) = Ret raw_text ->
  Py.strip raw_text = "" ->
  evaluate_lesson L llm topic explanation w
    = (Ret (Error "Empty response from LLM."),
       after_call w (format_messages (query_of topic explanation))).
Proof.
  intros Hexp Hllm Hblank.
  rewrite evaluate_lesson_nonblank by done. cbv zeta.
  rewrite Hllm, Hblank. cbn [Py.nonempty negb]. by rewrite orb_true_r.
Qed.

Lemma blank_reply_is_reported_witness :
  evaluate_lesson Stub.lib (Stub.echo (Py.nl ++ "  ")) "Fractions" "Halves."
    (Stub.start [])
  = (Ret (Error "Empty response from LLM."),
     after_call (Stub.start []) (format_messages (query_of "Fractions" "Halves."))).
Proof.
  apply (blank_reply_is_reported Stub.lib (Stub.echo (Py.nl ++ "  "))
           "Fractions" "Halves." (Py.nl ++ "  ")); reflexivity.
Defined.

End HandlerMore.

(** ** More on the console program *)

Section ConsoleMore.

Import TeachEval.

Lemma after_output_nil (w : world) : after_output w [] = w.
Proof. destruct w. unfold after_output. simpl. by rewrite app_nil_r. Qed.

Lemma after_output_app (w : world) (o1 o2 : list string) :
  after_output (after_output w o1) o2 = after_output w (o1 ++ o2).
Proof. unfold after_output. simpl. by rewrite app_assoc. Qed.

Lemma writes_print (s : string) : writes (print s) [s ++ Py.nl].
Proof. by intros w. Qed.

Lemma writes_bind (m k : IO unit) (o1 o2 : list string) :
  writes m o1 -> writes k o2 -> writes (_ ← m; k) (o1 ++ o2).
Proof.
  intros Hm Hk w. unfold mbind, IO_bind. rewrite Hm, Hk.
  by rewrite after_output_app.
Qed.

Lemma writes_items (xs : list string) : writes (print_items xs) (item_line <$> xs).
Proof.
  induction xs as [|x xs IH].
  - intros w. simpl. unfold mret, IO_ret. by rewrite after_output_nil.
  - cbn [print_items fmap list_fmap].
    apply (writes_bind _ _ [item_line x]); [apply writes_print|exact IH].
Qed.

Lemma writes_issues (ms : list string) :
  writes
    match ms with [] => print " - None noted" | x :: xs => print_items (x :: xs) end
    match ms with [] => [" - None noted" ++ Py.nl] | x :: xs => item_line <$> x :: xs end.
Proof. destruct ms; [apply writes_print|apply writes_items]. Qed.

Lemma display_feedback_parsed (L : Lib) (raw : string) (fb : LessonFeedback) :
  parser_parse L raw = inl fb -> writes (display_feedback L raw) (report fb).
Proof.
  intros Hparse. unfold display_feedback, report. rewrite Hparse.
  repeat (apply writes_bind;
          [first [apply writes_print | apply writes_items | apply writes_issues]|]).
  apply writes_print.
Qed.

Lemma display_feedback_unparsed (L : Lib) (raw e : string) :
  parser_parse L raw = inr e ->
  writes (display_feedback L raw)
    [("Error parsing response: " ++ e) ++ Py.nl;
     ("Raw response content: " ++ raw) ++ Py.nl].
Proof.
  intros Hparse. unfold display_feedback. rewrite Hparse.
  apply (writes_bind _ _ [_] [_]); apply writes_print.
Qed.

Lemma read_lines_skip (pre tail acc : list string) :
  Forall (fun l => is_done l = false) pre ->
  read_lines (pre ++ tail) acc = read_lines tail (acc ++ pre).
Proof.
  revert acc. induction pre as [|l pre IH]; intros acc Hpre.
  - by rewrite app_nil_r.
  - inversion Hpre as [|? ? Hl Hrest]; subst.
    cbn [app read_lines]. unfold is_done in Hl. rewrite Hl.
    rewrite IH by done. by rewrite <- app_assoc.
Qed.

Lemma get_explanation_run (w : world) (t : string) (body : list string) :
  stdin w = t :: body ->
  get_explanation_from_user w =
    (Ret (Py.strip t, Py.join Py.nl (read_lines body []).1),
     {| stdin := (read_lines body []).2; stdout := stdout w ++ greeting;
        llm_calls := llm_calls w |}).
Proof.
  intros Hin.
  unfold get_explanation_from_user, read_explanation, print, write, input,
    mbind, IO_bind, mret, IO_ret.
  simpl. rewrite Hin. simpl.
  destruct (read_lines body []) as [lines rest]. simpl.
  by rewrite <- !app_assoc.
Qed.

(** X11: the console program takes the first line as the topic, trimmed,
    and the lines up to the first line that reads [done] (in any case,
    white space around it ignored) as the explanation, joined by
    newlines. That line is consumed and what follows it stays unread.
    The end of the input ends the explanation in the same way. *)
Theorem explanation_is_read_up_to_done
    (w : world) (t : string) (pre : list string) :
  Forall (fun l => is_done l = false) pre ->
  (forall (d : string) (rest : list string),
     stdin w = t :: pre ++ d :: rest -> is_done d = true ->
     get_explanation_from_user w =
       (Ret (Py.strip t, Py.join Py.nl pre),
        {| stdin := rest; stdout := stdout w ++ greeting;
           llm_calls := llm_calls w |}))
  /\ (stdin w = t :: pre ->
      get_explanation_from_user w =
        (Ret (Py.strip t, Py.join Py.nl pre),
         {| stdin := []; stdout := stdout w ++ greeting;
            llm_calls := llm_calls w |})).
Proof.
  intros Hpre. split.
  - intros d rest Hin Hd. rewrite (get_explanation_run w t _ Hin).
    rewrite read_lines_skip by done. cbn [read_lines app].
    unfold is_done in Hd. by rewrite Hd.
  - intros Hin. rewrite (get_explanation_run w t _ Hin).
    rewrite <- (app_nil_r pre) at 1 2. by rewrite read_lines_skip by done.
Qed.

Lemma explanation_is_read_up_to_done_witness :
  get_explanation_from_user
    (Stub.start ["  Fractions "; "A half is"; "one of two parts."; " Done "; "left"])
  = (Ret ("Fractions", "A half is" ++ Py.nl ++ "one of two parts."),
     {| stdin := ["left"]; stdout := greeting; llm_calls := [] |})
  /\ get_explanation_from_user (Stub.start ["Fractions"; "A half."])
     = (Ret ("Fractions", "A half."),
        {| stdin := []; stdout := greeting; llm_calls := [] |}).
Proof.
  split.
  - apply (proj1 (explanation_is_read_up_to_done
                    (Stub.start ["  Fractions "; "A half is"; "one of two parts.";
                                 " Done "; "left"])
                    "  Fractions " ["A half is"; "one of two parts."]
                    ltac:(by repeat constructor)) " Done " ["left"]);
      reflexivity.
  - apply (proj2 (explanation_is_read_up_to_done
                    (Stub.start ["Fractions"; "A half."]) "Fractions" ["A half."]
                    ltac:(by repeat constructor))).
    reflexivity.
Defined.

(** X12: when the input ends before a topic is given, the program stops
    with the end-of-file error of the topic prompt, which no handler
    catches: the welcome and the prompt are written and no request is
    sent. *)
Theorem empty_input_raises_eof (L : Lib) (llm : gateway) (w : world) :
  stdin w = [] ->
  main L llm w
    = (Raise EOFError,
       after_output w ["Welcome to the content-focused Lesson Evaluator." ++ Py.nl;
                       "Enter the topic you'll explain: "]).
Proof.
  intros Hin. destruct w as [i o c]. simpl in Hin. subst i.
  unfold main, get_explanation_from_user, print, write, input, mbind, IO_bind,
    after_output.
  simpl. by rewrite <- app_assoc.
Qed.

Lemma empty_input_raises_eof_witness :
  main Stub.lib (Stub.echo "{}") (Stub.start [])
  = (Raise EOFError,
     after_output (Stub.start [])
       ["Welcome to the content-focused Lesson Evaluator." ++ Py.nl;
        "Enter the topic you'll explain: "]).
Proof. apply empty_input_raises_eof. reflexivity. Defined.

(** X13: [display_feedback] never raises, reads no input and sends no
    request: it only writes. When the reply does not parse it writes the
    message of the error and then the raw reply; when it parses, it
    writes a line for every strength, weakness, suggestion and mechanics
    issue of the feedback, and [None noted] when there is no issue. *)
Theorem display_feedback_only_writes (L : Lib) (raw : string) :
  (exists out, writes (display_feedback L raw) out)
  /\ (forall e, parser_parse L raw = inr e ->
        writes (display_feedback L raw)
          [("Error parsing response: " ++ e) ++ Py.nl;
           ("Raw response content: " ++ raw) ++ Py.nl])
  /\ (forall fb, parser_parse L raw = inl fb ->
        exists out, writes (display_feedback L raw) out
          /\ (forall x : string,
                x ∈ (strengths fb ++ weaknesses fb
                     ++ improvement_suggestions fb ++ mechanics_issues fb)%list ->
                item_line x ∈ out)
          /\ (mechanics_issues fb = [] -> (" - None noted" ++ Py.nl) ∈ out)).
Proof.
  split; [|split].
  - destruct (parser_parse L raw) as [fb|e] eqn:Hp.
    + eexists. by apply display_feedback_parsed.
    + eexists. by apply display_feedback_unparsed.
  - apply display_feedback_unparsed.
  - intros fb Hp. exists (report fb).
    split; [by apply display_feedback_parsed|]. split.
    + intros x Hx. unfold report. rewrite !elem_of_app in Hx.
      do 10 apply list_elem_of_further.
      destruct Hx as [Hx|[Hx|[Hx|Hx]]].
      * apply elem_of_app. left. by apply list_elem_of_fmap_2.
      * apply elem_of_app. right. apply list_elem_of_further.
        apply elem_of_app. left. by apply list_elem_of_fmap_2.
      * apply elem_of_app. right. apply list_elem_of_further.
        apply elem_of_app. right. apply list_elem_of_further.
        apply elem_of_app. left. by apply list_elem_of_fmap_2.
      * apply elem_of_app. right. apply list_elem_of_further.
        apply elem_of_app. right. apply list_elem_of_further.
        apply elem_of_app. right. apply list_elem_of_further.
        apply elem_of_app. left.
        destruct (mechanics_issues fb); [by apply elem_of_nil in Hx|].
        by apply list_elem_of_fmap_2.
    + intros Hnone. unfold report. rewrite Hnone.
      do 10 apply list_elem_of_further.
      apply elem_of_app. right. apply list_elem_of_further.
      apply elem_of_app. right. apply list_elem_of_further.
      apply elem_of_app. right. apply list_elem_of_further.
      apply list_elem_of_here.
Qed.

Lemma display_feedback_only_writes_witness :
  writes (display_feedback Stub.lib "oops")
    [("Error parsing response: " ++ "Invalid json output") ++ Py.nl;
     ("Raw response content: " ++ "oops") ++ Py.nl]
  /\ exists out, writes (display_feedback (reading sample_feedback) "{}") out
       /\ item_line "Short" ∈ out
       /\ (" - None noted" ++ Py.nl) ∈ out.
Proof.
  split.
  - apply (proj1 (proj2 (display_feedback_only_writes Stub.lib "oops"))).
    reflexivity.
  - destruct (proj2 (proj2 (display_feedback_only_writes
                              (reading sample_feedback) "{}"))
                sample_feedback eq_refl) as (out & Hout & Hitems & Hnone).
    exists out. split; [exact Hout|]. split.
    + apply Hitems. simpl. do 2 apply list_elem_of_further. apply list_elem_of_here.
    + apply Hnone. reflexivity.
Defined.

Lemma display_feedback_writes (L : Lib) (raw : string) :
  exists out, writes (display_feedback L raw) out.
Proof.
  destruct (parser_parse L raw) as [fb|e] eqn:Hp.
  - eexists. by apply display_feedback_parsed.
  - eexists. by apply display_feedback_unparsed.
Qed.

(** X14: with an explanation that is not blank the console program sends
    exactly one request, the prompt built from the topic and the
    explanation, and after the reply it only writes: it ends normally
    whether or not the reply parses, and reads no further input. *)
Theorem console_grades_with_one_request (L : Lib) (llm : gateway)
    (w0 w1 : world) (topic explanation raw : string) :
  get_explanation_from_user w0 = (Ret (topic, explanation), w1) ->
  Py.nonempty (Py.strip explanation) = true ->
  llm (format_messages (query_of topic explanation)) = Ret raw ->
  exists out,
    main L llm w0
      = (Ret tt,
         {| stdin := stdin w1; stdout := stdout w1 ++ out;
            llm_calls := llm_calls w0
                         ++ [format_messages (query_of topic explanation)] |}).
Proof.
  intros Hread Hne Hllm.
  destruct (display_feedback_writes L raw) as [out Hout]. exists out.
  unfold main, mbind, IO_bind. rewrite Hread, Hne. cbn [negb].
  unfold grade_explanation, llm_invoke. rewrite Hllm, Hout.
  unfold after_output. simpl.
  by rewrite (get_explanation_keeps_calls _ _ _ Hread).
Qed.

Lemma console_grades_with_one_request_witness :
  exists out,
    main Stub.lib (Stub.echo "not json") (Stub.start ["Fractions"; "A half."; "done"])
      = (Ret tt,
         {| stdin := []; stdout := greeting ++ out;
            llm_calls := [format_messages (query_of "Fractions" "A half.")] |}).
Proof.
  apply (console_grades_with_one_request Stub.lib (Stub.echo "not json")
           (Stub.start ["Fractions"; "A half."; "done"])
           {| stdin := []; stdout := greeting; llm_calls := [] |}
           "Fractions" "A half." "not json"); reflexivity.
Defined.

(** X15: a failure of the call to the model is not caught and not
    retried, in neither program: the exception leaves the web handler and
    the console program as it came, after the one request, and the
    console program writes nothing more. *)
Theorem gateway_failure_is_passed_on (L : Lib) (llm : gateway)
    (topic explanation : string) (e : exn) :
  Py.nonempty (Py.strip explanation) = true ->
  (llm (App.format_messages (query_of topic explanation)) = Raise e ->
   forall w : world,
     App.evaluate_lesson L llm topic explanation w
       = (Raise e, after_call w (App.format_messages (query_of topic explanation))))
  /\ (llm (format_messages (query_of topic explanation)) = Raise e ->
      forall w0 w1 : world,
        get_explanation_from_user w0 = (Ret (topic, explanation), w1) ->
        main L llm w0
          = (Raise e,
             {| stdin := stdin w1; stdout := stdout w1;
                llm_calls := llm_calls w0
                             ++ [format_messages (query_of topic explanation)] |})).
Proof.
  intros Hne. split.
  - intros Hllm w. rewrite evaluate_lesson_nonblank by done. cbv zeta.
    by rewrite Hllm.
  - intros Hllm w0 w1 Hread. unfold main, mbind, IO_bind.
    rewrite Hread, Hne. cbn [negb].
    unfold grade_explanation, llm_invoke. rewrite Hllm.
    by rewrite (get_explanation_keeps_calls _ _ _ Hread).
Qed.

Lemma gateway_failure_is_passed_on_witness :
  App.evaluate_lesson Stub.lib (fun _ => Raise GatewayFailure) "Fractions" "A half."
    (Stub.start [])
  = (Raise GatewayFailure,
     after_call (Stub.start []) (App.format_messages (query_of "Fractions" "A half.")))
  /\ main Stub.lib (fun _ => Raise GatewayFailure)
       (Stub.start ["Fractions"; "A half."; "done"])
     = (Raise GatewayFailure,
        {| stdin := []; stdout := greeting;
           llm_calls := [format_messages (query_of "Fractions" "A half.")] |}).
Proof.
  destruct (gateway_failure_is_passed_on Stub.lib (fun _ => Raise GatewayFailure)
              "Fractions" "A half." GatewayFailure eq_refl) as [Hweb Hconsole].
  split.
  - apply Hweb. reflexivity.
  - apply (Hconsole eq_refl (Stub.start ["Fractions"; "A half."; "done"])
             {| stdin := []; stdout := greeting; llm_calls := [] |}).
    reflexivity.
Defined.

End ConsoleMore.

(** ** What the web handler can raise *)

Section HandlerOutcome.

Import App.

Lemma extract_json_shape (text : string) :
  exists m : string, extract_json text = "{" ++ m ++ "}".
Proof.
  unfold extract_json.
  destruct (Re.search _ _) as [r|] eqn:Hr; [by eapply search_shape|].
  by exists "".
Qed.

Lemma init_raises_validation (L : Lib) (kw : gmap string value) (e : exn) :
  LessonFeedback_init L kw = Raise e -> e = ValidationError.
Proof.
  unfold LessonFeedback_init.
  match goal with |- match ?o with _ => _ end = _ -> _ => destruct o end;
    [discriminate|]. by intros [= <-].
Qed.

(** X16: with a decoder that returns nothing but a mapping for a text
    that opens with a brace, as a JSON decoder does, the handler never
    fails on the lookups of the adapter: once the model has replied, the
    handler returns a context for the template, or raises the validation
    error of the assembler, or passes on the exception with which
    [json.loads] gave up, one other than [json.JSONDecodeError]. *)
Theorem handler_never_fails_in_the_adapter (L : Lib) (llm : gateway)
    (topic explanation raw_text : string) (w : world) :
  (forall s v, json_loads L ("{" ++ s) = Ret v -> exists d, v = VDict d) ->
  llm (format_messages (query_of topic explanation)) = Ret raw_text ->
  (exists ctx, fst (evaluate_lesson L llm topic explanation w) = Ret ctx)
  \/ fst (evaluate_lesson L llm topic explanation w) = Raise ValidationError
  \/ (exists e, e <> JSONDecodeError
        /\ json_loads L (extract_json raw_text) = Raise e
        /\ fst (evaluate_lesson L llm topic explanation w) = Raise e).
Proof.
  intros Hdict Hllm.
  destruct (Py.nonempty (Py.strip explanation)) eqn:Hne.
  2: { left. eexists. unfold evaluate_lesson. rewrite Hne. reflexivity. }
  rewrite evaluate_lesson_nonblank by done. cbv zeta. rewrite Hllm.
  destruct (negb (Py.nonempty raw_text) || negb (Py.nonempty (Py.strip raw_text)));
    [left; eexists; reflexivity|].
  destruct (extract_json_shape raw_text) as [m Hm]. unfold decoded.
  destruct (json_loads L (extract_json raw_text)) as [v|e] eqn:Hv.
  - rewrite Hm in Hv. destruct (Hdict _ _ Hv) as [d ->].
    destruct (LessonFeedback_init L (adapt_feedback d)) as [fb|e] eqn:Hinit.
    + left. eexists. reflexivity.
    + right. left. rewrite (init_raises_validation _ _ _ Hinit). reflexivity.
  - destruct e; simpl;
      try (right; right; eexists; (split; [|split; reflexivity]); discriminate).
    destruct (LessonFeedback_init L (adapt_feedback ∅)) as [fb|e'] eqn:Hinit.
    + left. eexists. reflexivity.
    + right. left. rewrite (init_raises_validation _ _ _ Hinit). reflexivity.
Qed.

Lemma handler_never_fails_in_the_adapter_witness :
  (exists ctx,
     fst (evaluate_lesson Stub.lib (Stub.echo "Here: {}") "Fractions" "A half."
            (Stub.start [])) = Ret ctx)
  \/ fst (evaluate_lesson Stub.lib (Stub.echo "Here: {}") "Fractions" "A half."
            (Stub.start [])) = Raise ValidationError
  \/ (exists e, e <> JSONDecodeError
        /\ json_loads Stub.lib (extract_json "Here: {}") = Raise e
        /\ fst (evaluate_lesson Stub.lib (Stub.echo "Here: {}") "Fractions" "A half."
                  (Stub.start [])) = Raise e).
Proof.
  apply (handler_never_fails_in_the_adapter Stub.lib (Stub.echo "Here: {}")
           "Fractions" "A half." "Here: {}").
  - intros s v. unfold Stub.lib, Stub.loads. cbn [json_loads].
    destruct (String.eqb _ _); [|discriminate]. intros [= <-]. by eexists.
  - reflexivity.
Defined.

End HandlerOutcome.
